(** * WormsArmageddonMapMaker: the PNG chunk routines and the conversion
      pipeline of [make_map.py], embedded and verified.

    Byte strings are [list byte], Python [str] values restricted to code
    points 0..255 (what [bytes.decode("latin-1")] produces) are [string],
    Python integers are [Z].  Functions that can raise return an [outcome];
    the two [while] loops are written with a fuel counter that bounds the
    number of executions of the loop body. *)

From Stdlib Require Import ZArith List Lia Bool Ascii String.
From Stdlib Require Import Strings.Byte.
From stdpp Require Import base tactics option list gmap strings.

Local Open Scope Z_scope.

(** ** Outcomes of a Python call *)

Inductive exn : Type :=
  | ValueError          (* validation errors, also Pillow's mode errors *)
  | StructError         (* struct.error: wrong buffer size for the format *)
  | FileNotFoundError   (* open() on a path that does not name a file *)
  | UnidentifiedImageError (* Image.open on bytes that are no image *)
  | OSError.            (* open(path, "wb"), write or print refused by the system *)

Inductive outcome (A : Type) : Type :=
  | Returned (a : A)
  | Raised (e : exn)
  | NoFuel.
Arguments Returned {A} a.
Arguments Raised {A} e.
Arguments NoFuel {A}.

Definition obind {A B} (m : outcome A) (k : A -> outcome B) : outcome B :=
  match m with
  | Returned a => k a
  | Raised e => Raised e
  | NoFuel => NoFuel
  end.

Notation "'let!' x ':=' m 'in' k" := (obind m (fun x => k))
  (at level 10, x pattern, m at level 100, k at level 200).

(** ** Byte strings, slices and [struct.unpack] *)

Module Bytes.

Definition bytes := list byte.

Definition len (d : bytes) : Z := Z.of_nat (length d).

(** How Python clamps one bound of a slice against the length [n]. *)
Definition adjust (i n : Z) : Z :=
  if i <? 0 then Z.max (i + n) 0 else Z.min i n.

(** [d[lo:hi]] *)
Definition slice (d : bytes) (lo hi : Z) : bytes :=
  let lo' := adjust lo (len d) in
  let hi' := adjust hi (len d) in
  take (Z.to_nat (hi' - lo')) (drop (Z.to_nat lo') d).

(** [d[:hi]] and [d[lo:]] *)
Definition slice_to (d : bytes) (hi : Z) : bytes := slice d 0 hi.
Definition slice_from (d : bytes) (lo : Z) : bytes := slice d lo (len d).

Definition byte_val (b : byte) : Z := Z.of_N (Byte.to_N b).

(** [struct.unpack(">I", b)[0]]: exactly four bytes, big endian. *)
Definition unpack_be32 (b : bytes) : outcome Z :=
  match b with
  | [b0; b1; b2; b3] =>
      Returned (Z.lor (Z.shiftl (byte_val b0) 24)
               (Z.lor (Z.shiftl (byte_val b1) 16)
               (Z.lor (Z.shiftl (byte_val b2) 8) (byte_val b3))))
  | _ => Raised StructError
  end.

Definition bytes_eqb (a b : bytes) : bool :=
  bool_decide (map Byte.to_N a = map Byte.to_N b).

(** [b.decode("latin-1")]: byte n becomes the character of code point n. *)
Definition decode_latin1 (b : bytes) : string :=
  string_of_list_ascii (map ascii_of_byte b).

(** [str.lower] on one character of the Latin-1 range: A..Z and the
    accented capitals 0xC0..0xDE (but not the sign 0xD7) move up by 32. *)
Definition lower_char (c : ascii) : ascii :=
  let n := N_of_ascii c in
  if ((65 <=? n) && (n <=? 90))%N
     || ((192 <=? n) && (n <=? 222) && negb (n =? 215))%N
  then ascii_of_N (n + 32) else c.

Fixpoint lower (s : string) : string :=
  match s with
  | EmptyString => EmptyString
  | String c s' => String (lower_char c) (lower s')
  end.

End Bytes.
Import Bytes.

(** ** [find_custom_chunk] and [insert_chunk_before_iend] *)

(** The loop of [find_custom_chunk] (lines 70-78), [fuel] bounding the
    executions of its body. *)
Fixpoint find_custom_chunk_loop (fuel : nat) (data : bytes)
    (lower_names : gset string) (offset : Z) : outcome (option bytes) :=
  if offset + 8 <=? len data then
    match fuel with
    | O => NoFuel
    | S fuel' =>
        let! length := unpack_be32 (slice data offset (offset + 4)) in
        let type_code := decode_latin1 (slice data (offset + 4) (offset + 8)) in
        let chunk_start := offset in
        let chunk_end := offset + 8 + length + 4 in
        if bool_decide (lower type_code ∈ lower_names)
        then Returned (Some (slice data chunk_start chunk_end))
        else find_custom_chunk_loop fuel' data lower_names chunk_end
    end
  else Returned None.

(** Every execution of a loop body moves the offset by at least 12, so
    this many executions are enough (see [scan_loops_terminate]). *)
Definition scan_fuel (data : bytes) : nat := Z.to_nat (len data / 12 + 1).

Definition find_custom_chunk (data : bytes) (names : list string)
    : outcome (option bytes) :=
  let offset := 8 in
  let lower_names : gset string := list_to_set (map lower names) in
  find_custom_chunk_loop (scan_fuel data) data lower_names offset.

Definition IEND : bytes := [x49; x45; x4e; x44]%byte.

(** The loop of [insert_chunk_before_iend] (lines 90-98). *)
Fixpoint insert_chunk_loop (fuel : nat) (png_data chunk : bytes)
    (offset : Z) : outcome bytes :=
  if offset + 8 <=? len png_data then
    match fuel with
    | O => NoFuel
    | S fuel' =>
        let! length := unpack_be32 (slice png_data offset (offset + 4)) in
        let type_code := slice png_data (offset + 4) (offset + 8) in
        if bytes_eqb type_code IEND
        then Returned (slice_to png_data offset ++ chunk ++ slice_from png_data offset)
        else insert_chunk_loop fuel' png_data chunk (offset + (8 + length + 4))
    end
  else Returned (png_data ++ chunk).

Definition insert_chunk_before_iend (png_data chunk : bytes) : outcome bytes :=
  let offset := 8 in
  insert_chunk_loop (scan_fuel png_data) png_data chunk offset.

(** [ensure_divisible_by_8] (lines 101-112); [//] is floor division and
    [x or 8] is [8] exactly when [x] is [0]. *)
Definition py_or (x y : Z) : Z := if x =? 0 then y else x.

Definition ensure_divisible_by_8 (size : Z * Z) : Z * Z :=
  let '(w, h) := size in
  let new_w := py_or ((w / 8) * 8) 8 in
  let new_h := py_or ((h / 8) * 8) 8 in
  (new_w, new_h).


(** ** Images, as Pillow's modes RGBA, L (one band), RGB and P (palette) *)

Definition size_t := (Z * Z)%type.
Definition colour := (Z * Z * Z)%type.

Record image := Image { im_size : size_t; im_pixels : list (Z * Z * Z * Z) }.
Record band := Band { b_size : size_t; b_values : list Z }.
Record rgb_image := RgbImage { rgb_size : size_t; rgb_pixels : list colour }.
Record pimage := PImage {
  p_size : size_t;
  p_palette : list Z;      (* what getpalette() returns: r, g, b, r, g, b, ... *)
  p_indices : list Z       (* one palette index per pixel, row by row *)
}.

Definition size_eqb (a b : size_t) : bool :=
  (a.1 =? b.1) && (a.2 =? b.2).

(** The calls into Pillow whose result is computed by the library
    (decoding, resampling, the median-cut quantiser, the PNG encoder) and
    [ImageChops.logical_and], which Pillow documents for mode "1" images
    only and which is applied here to the mode "L" output of [point]: they
    are parameters of the development. *)
Class Pillow := {
  (* Image.open(path).convert("RGBA"), on the bytes of the file *)
  image_decode : bytes -> outcome image;
  (* src.resize(new_size, Image.NEAREST) *)
  resize_nearest : image -> size_t -> image;
  (* ImageChops.logical_and(a, b) *)
  logical_and : band -> band -> outcome band;
  (* im.quantize(colors=.., method=Image.MEDIANCUT, dither=..) *)
  quantize : rgb_image -> Z -> bool -> pimage;
  (* quantized.save(buffer, format="PNG", [transparency=..]); buffer.getvalue() *)
  save_png : pimage -> option Z -> bytes
}.

(** The calls whose result is plain data movement. *)

(* src.split() *)
Definition split (src : image) : band * band * band * band :=
  let chan (f : Z * Z * Z * Z -> Z) := Band (im_size src) (map f (im_pixels src)) in
  (chan (fun '(r, _, _, _) => r), chan (fun '(_, g, _, _) => g),
   chan (fun '(_, _, b, _) => b), chan (fun '(_, _, _, a) => a)).

(* band.point(f) *)
Definition point (f : Z -> Z) (b : band) : band :=
  Band (b_size b) (map f (b_values b)).

(* Image.new("L", size, color=c) *)
Definition new_L (size : size_t) (c : Z) : band :=
  Band size (replicate (Z.to_nat (size.1 * size.2)) c).

(* alpha.paste(v, mask=m), m of mode "1": v wherever the mask is set *)
Definition paste_const (alpha : band) (v : Z) (mask : band) : band :=
  Band (b_size alpha)
       (zip_with (fun a m => if m =? 0 then a else v) (b_values alpha) (b_values mask)).

(* src.putalpha(alpha) *)
Definition putalpha (src : image) (alpha : band) : image :=
  Image (im_size src)
        (zip_with (fun '(r, g, b, _) a => (r, g, b, a)) (im_pixels src) (b_values alpha)).

(* src.convert("RGB"): the alpha band is dropped *)
Definition convert_RGB (src : image) : rgb_image :=
  RgbImage (im_size src) (map (fun '(r, g, b, _) => (r, g, b)) (im_pixels src)).

(* quantized.getpalette() *)
Definition getpalette (q : pimage) : list Z := p_palette q.

(* quantized.putpalette(palette): bytes(palette) refuses values outside 0..255 *)
Definition putpalette (q : pimage) (palette : list Z) : outcome pimage :=
  if forallb (fun v => (0 <=? v) && (v <=? 255)) palette
  then Returned (PImage (p_size q) palette (p_indices q))
  else Raised ValueError.

Definition listlen {A} (l : list A) : Z := Z.of_nat (length l).

(** ** The world [convert_image] runs in: the files, the calls made on
    them, and what the system refuses *)

(** The trace holds the calls in the order they were made, whether they
    went through or not. *)
Inductive event : Type :=
  | EvOpenRead (path : string)
  | EvIsFile (path : string)
  | EvWrite (path : string) (data : bytes)
  | EvPrint (msg : string).

(** What the system refuses: [open(path, "wb")] (a missing directory, no
    permission: the file is left as it was), the write or the close that
    follows it (the file is left holding the first bytes of the data) and
    [print] (a closed or wrongly encoded standard output). *)
Record refusals := Refusals {
  open_wb_error : string -> option exn;
  write_error : string -> option (nat * exn);
  print_error : string -> option exn
}.

Definition no_refusals : refusals :=
  Refusals (fun _ => None) (fun _ => None) (fun _ => None).

Record world := World {
  w_files : gmap string bytes;
  w_trace : list event;
  w_refusals : refusals
}.

Definition M (A : Type) : Type := world -> outcome A * world.

Definition ret {A} (a : A) : M A := fun w => (Returned a, w).
Definition raise {A} (e : exn) : M A := fun w => (Raised e, w).
Definition lift {A} (o : outcome A) : M A := fun w => (o, w).
Definition bind {A B} (m : M A) (k : A -> M B) : M B :=
  fun w => match m w with
           | (Returned a, w') => k a w'
           | (Raised e, w') => (Raised e, w')
           | (NoFuel, w') => (NoFuel, w')
           end.

Notation "'let*' x ':=' m 'in' k" := (bind m (fun x => k))
  (at level 10, x pattern, m at level 100, k at level 200).

Definition log (e : event) : M unit :=
  fun w => (Returned tt, World (w_files w) (w_trace w ++ [e]) (w_refusals w)).

(* open(path, "rb").read() *)
Definition read_file (path : string) : M bytes :=
  let* _ := log (EvOpenRead path) in
  fun w => match w_files w !! path with
           | Some data => (Returned data, w)
           | None => (Raised FileNotFoundError, w)
           end.

(* os.path.isfile(path) *)
Definition isfile (path : string) : M bool :=
  let* _ := log (EvIsFile path) in
  fun w => (Returned (bool_decide (is_Some (w_files w !! path))), w).

(* with open(path, "wb") as f: f.write(data) *)
Definition write_file (path : string) (data : bytes) : M unit :=
  let* _ := log (EvWrite path data) in
  fun w =>
    match open_wb_error (w_refusals w) path with
    | Some e => (Raised e, w)
    | None =>
        match write_error (w_refusals w) path with
        | Some (n, e) =>
            (Raised e,
             World (<[path := take n data]> (w_files w)) (w_trace w) (w_refusals w))
        | None =>
            (Returned tt,
             World (<[path := data]> (w_files w)) (w_trace w) (w_refusals w))
        end
    end.

(* print(msg) *)
Definition print (msg : string) : M unit :=
  let* _ := log (EvPrint msg) in
  fun w =>
    match print_error (w_refusals w) msg with
    | Some e => (Raised e, w)
    | None => (Returned tt, w)
    end.

(** Truth value of an [Optional[bytes]]: [None] and [b""] are false. *)
Definition truthy (o : option bytes) : bool :=
  match o with
  | Some (_ :: _) => true
  | _ => false
  end.

Section convert.
Context `{Pillow}.

(** Lines 166-180: the alpha band built from the transparent colour. *)
Definition apply_transparency (src : image) (transparent_colour : option colour)
    : outcome image :=
  match transparent_colour with
  | Some (r, g, b) =>
      let '(r_band, g_band, b_band, _) := split src in
      let mask_r := point (fun v => if v =? r then 255 else 0) r_band in
      let mask_g := point (fun v => if v =? g then 255 else 0) g_band in
      let mask_b := point (fun v => if v =? b then 255 else 0) b_band in
      let! inner := logical_and mask_g mask_b in
      let! trans_mask := logical_and mask_r inner in
      let alpha := new_L (im_size src) 255 in
      let alpha := paste_const alpha 0 trans_mask in
      Returned (putalpha src alpha)
  | None => Returned src
  end.

(** Lines 192-203: the palette entry for transparency. *)
Definition add_transparent_entry (quantized : pimage)
    (transparent_colour : option colour) : outcome (pimage * option Z) :=
  match transparent_colour with
  | Some (r, g, b) =>
      let palette := getpalette quantized in
      if listlen palette / 3 <? 256 then
        let palette := palette ++ [r; g; b] in
        let! quantized := putpalette quantized palette in
        Returned (quantized, Some (listlen palette / 3 - 1))
      else
        Returned (quantized, Some 0)
  | None => Returned (quantized, None)
  end.

(** Lines 157-203: from the decoded source to the palette image handed
    to [save], with the index passed as [transparency]. *)
Definition to_indexed (src : image) (max_colours : Z)
    (transparent_colour : option colour) (dither : bool)
    : outcome (pimage * option Z) :=
  let new_size := ensure_divisible_by_8 (im_size src) in
  let src := if negb (size_eqb new_size (im_size src))
             then resize_nearest src new_size else src in
  let! src := apply_transparency src transparent_colour in
  let quantized := quantize (convert_RGB src) max_colours dither in
  add_transparent_entry quantized transparent_colour.

(** Lines 213-219: the chunk of the template, spliced into the PNG. *)
Definition copy_template_chunk (png_data : bytes) (template_path : option string)
    : M bytes :=
  match template_path with
  | Some path =>
      let* is_file := isfile path in
      if is_file then
        let* template_bytes := read_file path in
        let* custom_chunk :=
          lift (find_custom_chunk template_bytes ["w2lv"; "walv"]%string) in
        match custom_chunk with
        | Some chunk =>
            if truthy custom_chunk
            then lift (insert_chunk_before_iend png_data chunk)
            else ret png_data
        | None => ret png_data
        end
      else ret png_data
  | None => ret png_data
  end.

Definition convert_image (input_path output_path : string)
    (template_path : option string) (max_colours : Z)
    (transparent_colour : option colour) (dither : bool) : M unit :=
  if (max_colours <? 1) || (max_colours >? 112) then raise ValueError else
  let* input_bytes := read_file input_path in
  let* src := lift (image_decode input_bytes) in
  let* indexed := lift (to_indexed src max_colours transparent_colour dither) in
  let '(quantized, transparency_index) := indexed in
  let png_data := save_png quantized transparency_index in
  let* png_data := copy_template_chunk png_data template_path in
  let* _ := write_file output_path png_data in
  print ("Created W:A map: " +:+ output_path).

End convert.

(** What a viewer of the written PNG sees. *)

(** Number of palette entries. *)
Definition palette_entries (q : pimage) : Z := listlen (p_palette q) / 3.

(** The world after further events, the files untouched. *)
Definition after (w : world) (evs : list event) : world :=
  World (w_files w) (w_trace w ++ evs) (w_refusals w).

(** The system lets the output through: nothing refuses the file at
    [output_path] nor the message printed about it. *)
Definition lets_through (w : world) (output_path : string) : Prop :=
  open_wb_error (w_refusals w) output_path = None /\
  write_error (w_refusals w) output_path = None /\
  print_error (w_refusals w) ("Created W:A map: " +:+ output_path) = None.

(** The output dimension the spec asks for: the largest multiple of 8 not
    exceeding [n], or 8 when that would be 0. *)
Definition largest_multiple_of_8_upto (n m : Z) : Prop :=
  (8 | m) /\ m <= n /\ forall k, (8 | k) -> k <= n -> k <= m.

Definition spec_dimension (n r : Z) : Prop :=
  exists m, largest_multiple_of_8_upto n m /\ r = (if m =? 0 then 8 else m).

(** A successful run of [convert_image]: [src] is the decoded input,
    [(q, t)] the palette image and transparency index handed to [save],
    and [png] the bytes left in the output file, which are the encoder's
    output with at most one chunk spliced in. *)
Definition writes `{Pillow} (input_path output_path : string)
    (max_colours : Z) (transparent_colour : option colour) (dither : bool)
    (w w' : world) (src : image) (q : pimage) (t : option Z) (png : bytes) : Prop :=
  (exists data, w_files w !! input_path = Some data /\
                image_decode data = Returned src) /\
  to_indexed src max_colours transparent_colour dither = Returned (q, t) /\
  w_files w' !! output_path = Some png /\
  (png = save_png q t \/
   exists c, insert_chunk_before_iend (save_png q t) c = Returned png).

(** What the development assumes of the library, where a claim needs it. *)

(** [resize] returns an image of the requested size. *)
Definition resize_law `{Pillow} : Prop :=
  forall im size, im_size (resize_nearest im size) = size.

(** [quantize] keeps the size of the image. *)
Definition quantize_size_law `{Pillow} : Prop :=
  forall im colors dither, p_size (quantize im colors dither) = rgb_size im.

(** [quantize] returns a palette of at most [colors] entries. *)
Definition quantize_palette_law `{Pillow} : Prop :=
  forall im colors dither, 1 <= colors ->
    palette_entries (quantize im colors dither) <= colors.

(** [ImageChops.logical_and] takes images of mode "1" only and raises
    [ValueError] ("image has wrong mode") on any other.  A [band] is an
    image of mode "L", which is what [split], [point] and [Image.new("L")]
    return, so the call raises on every pair of bands. *)
Definition logical_and_mode_law `{Pillow} : Prop :=
  forall a b, logical_and a b = Raised ValueError.

(** ** A small instance of the library interface

    A stand-in for Pillow on which runs of [convert_image] can be
    evaluated: a raw pixel format, nearest-neighbour sampling on integers,
    a first-come palette, and a PNG writer that stores its data
    uncompressed with zeroed checksums. *)

Module Toy.

Definition byte_of_Z (z : Z) : byte :=
  default x00%byte (Byte.of_N (Z.to_N (z mod 256))).

Definition be32 (n : Z) : bytes :=
  [byte_of_Z (n / 16777216); byte_of_Z (n / 65536); byte_of_Z (n / 256); byte_of_Z n].

Definition raw_chunk (type_code payload : bytes) : bytes :=
  be32 (len payload) ++ type_code ++ payload ++ be32 0.

Fixpoint quads (vs : list Z) : list (Z * Z * Z * Z) :=
  match vs with
  | r :: g :: b :: a :: rest => (r, g, b, a) :: quads rest
  | _ => []
  end.

(** width, height, then 4 bytes per pixel *)
Definition decode (data : bytes) : outcome image :=
  match data with
  | w :: h :: rest =>
      let px := quads (map byte_val rest) in
      if listlen px =? byte_val w * byte_val h
      then Returned (Image (byte_val w, byte_val h) px)
      else Raised UnidentifiedImageError
  | _ => Raised UnidentifiedImageError
  end.

Definition resize (im : image) (size : size_t) : image :=
  let '(w, h) := im_size im in
  let '(nw, nh) := size in
  let at_ (x y : Z) :=
    default (0, 0, 0, 255) (im_pixels im !! Z.to_nat (y * w + x)) in
  Image size
    (flat_map (fun y => map (fun x =>
         at_ ((2 * Z.of_nat x + 1) * w / (2 * nw)) ((2 * Z.of_nat y + 1) * h / (2 * nh)))
         (seq 0 (Z.to_nat nw)))
      (seq 0 (Z.to_nat nh))).

(** Bands are of mode "L", and [logical_and] wants mode "1". *)
Definition and_bands (a b : band) : outcome band := Raised ValueError.

Definition colour_eqb (a b : colour) : bool :=
  let '(r1, g1, b1) := a in let '(r2, g2, b2) := b in
  (r1 =? r2) && (g1 =? g2) && (b1 =? b2).

Fixpoint distinct (seen : list colour) (px : list colour) : list colour :=
  match px with
  | [] => seen
  | c :: rest =>
      if existsb (colour_eqb c) seen then distinct seen rest
      else distinct (seen ++ [c]) rest
  end.

Fixpoint index_of (c : colour) (pal : list colour) (i : Z) : Z :=
  match pal with
  | [] => 0
  | c' :: rest => if colour_eqb c c' then i else index_of c rest (i + 1)
  end.

Definition quantise (im : rgb_image) (colors : Z) (dither : bool) : pimage :=
  let pal := take (Z.to_nat colors) (distinct [] (rgb_pixels im)) in
  PImage (rgb_size im)
         (flat_map (fun '(r, g, b) => [r; g; b]) pal)
         (map (fun c => index_of c pal 0) (rgb_pixels im)).

Definition save (q : pimage) (transparency : option Z) : bytes :=
  [x89; x50; x4e; x47; x0d; x0a; x1a; x0a]%byte
  ++ raw_chunk [x49; x48; x44; x52]%byte
       (be32 (p_size q).1 ++ be32 (p_size q).2 ++ [x08; x03; x00; x00; x00]%byte)
  ++ raw_chunk [x50; x4c; x54; x45]%byte (map byte_of_Z (p_palette q))
  ++ match transparency with
     | Some t => raw_chunk [x74; x52; x4e; x53]%byte
                   (replicate (Z.to_nat t) xff%byte ++ [x00%byte])
     | None => []
     end
  ++ raw_chunk [x49; x44; x41; x54]%byte (map byte_of_Z (p_indices q))
  ++ raw_chunk IEND [].

Definition lib : Pillow := {|
  image_decode := decode;
  resize_nearest := resize;
  logical_and := and_bands;
  quantize := quantise;
  save_png := save
|}.

(** A raw file of [w] by [h] pixels, all of one colour. *)
Definition flat_file (w h : Z) (r g b : byte) : bytes :=
  byte_of_Z w :: byte_of_Z h ::
  concat (replicate (Z.to_nat (w * h)) [r; g; b; xff%byte]).

(** A template map: signature, a header chunk, a [w2lv] chunk of three
    payload bytes, and the end marker. *)
Definition w2lv_chunk : bytes :=
  raw_chunk [x77; x32; x6c; x76]%byte [x01; x02; x03]%byte.

Definition template_file : bytes :=
  [x89; x50; x4e; x47; x0d; x0a; x1a; x0a]%byte
  ++ raw_chunk [x49; x48; x44; x52]%byte [x00]%byte
  ++ w2lv_chunk
  ++ raw_chunk IEND [].

(** A file cut off inside its [w2lv] chunk: the header announces five
    payload bytes and the data stops after the type code. *)
Definition truncated_file : bytes :=
  [x89; x50; x4e; x47; x0d; x0a; x1a; x0a]%byte
  ++ [x00; x00; x00; x05; x77; x32; x6c; x76]%byte.

Definition files0 : gmap string bytes :=
  <["in.raw" := flat_file 8 8 x00 x00 x00]>
  (<["in9.raw" := flat_file 9 17 x10 x20 x30]>
  (<["map.png" := template_file]> ∅)).

(** A system that refuses nothing, one whose standard output is closed,
    one with no directory to write into, and one whose disk is full after
    ten bytes of the output. *)
Definition world0 : world := World files0 [] no_refusals.

Definition world_closed_stdout : world :=
  World files0 [] (Refusals (fun _ => None) (fun _ => None) (fun _ => Some OSError)).

Definition world_no_directory : world :=
  World files0 [] (Refusals (fun _ => Some FileNotFoundError) (fun _ => None)
                            (fun _ => None)).

Definition world_full_disk : world :=
  World files0 []
    (Refusals (fun _ => None) (fun _ => Some (10%nat, OSError)) (fun _ => None)).

(** The runs: an all-black 8x8 input with black as the transparent colour;
    the same input without transparency, alone and with the template map;
    a 9x17 input without transparency. *)
Definition run_black : outcome unit * world :=
  @convert_image lib "in.raw" "out.png" None 112 (Some (0, 0, 0)) false world0.

Definition run_solid : outcome unit * world :=
  @convert_image lib "in.raw" "out.png" None 112 None false world0.

Definition run_solid_template : outcome unit * world :=
  @convert_image lib "in.raw" "out.png" (Some "map.png"%string) 112
    None false world0.

Definition run_9x17 : outcome unit * world :=
  @convert_image lib "in9.raw" "out.png" None 112 None false world0.

Definition png_solid : bytes :=
  default [] (w_files run_solid.2 !! "out.png"%string).

(** The run without transparency on the full disk. *)
Definition run_full_disk : outcome unit * world :=
  @convert_image lib "in.raw" "out.png" None 112 None false world_full_disk.

End Toy.


(** ** The chunk sequence of a byte string, in the spec's words *)

(** Declared payload length and type code of the chunk header at [off]. *)
Definition chunk_length (data : bytes) (off : Z) : Z :=
  match unpack_be32 (slice data off (off + 4)) with
  | Returned n => n
  | _ => 0
  end.

Definition chunk_type (data : bytes) (off : Z) : bytes :=
  slice data (off + 4) (off + 8).

(** Offsets met by walking chunk after chunk from [start]: a chunk whose
    8-byte header fits in the data is followed by the offset 12 + length
    further on. *)
Inductive scan_reaches (data : bytes) (start : Z) : Z -> Prop :=
  | reach_start : scan_reaches data start start
  | reach_next off :
      scan_reaches data start off ->
      off + 8 <= len data ->
      scan_reaches data start (off + 12 + chunk_length data off).

(** A chunk of the file: met by the walk from offset 8 (after the
    signature), with a complete header. *)
Definition is_chunk (data : bytes) (off : Z) : Prop :=
  scan_reaches data 8 off /\ off + 8 <= len data.

(** The first chunk satisfying [P]. *)
Definition first_chunk (data : bytes) (P : Z -> Prop) (off : Z) : Prop :=
  is_chunk data off /\ P off /\
  forall o, is_chunk data o -> o < off -> ~ P o.

(** The type code at [off] equals one of [names] up to case. *)
Definition type_matches (names : list string) (data : bytes) (off : Z) : Prop :=
  exists name, name ∈ names /\
    lower name = lower (decode_latin1 (chunk_type data off)).

Definition type_is_IEND (data : bytes) (off : Z) : Prop :=
  chunk_type data off = IEND.

(** The offset of the first chunk header, from [off] on, that the test
    [p] accepts: the common skeleton of the two loops. *)
Fixpoint first_hit (data : bytes) (fuel : nat) (p : Z -> bool) (off : Z)
    : outcome (option Z) :=
  if off + 8 <=? len data then
    match fuel with
    | O => NoFuel
    | S fuel' =>
        if p off then Returned (Some off)
        else first_hit data fuel' p (off + 12 + chunk_length data off)
    end
  else Returned None.

(** [fuel] executions of the body are enough from [off]. *)
Definition enough (data : bytes) (fuel : nat) (off : Z) : Prop :=
  len data - off - 8 < 12 * Z.of_nat fuel.

Definition name_test (data : bytes) (lower_names : gset string) (off : Z) : bool :=
  bool_decide (lower (decode_latin1 (chunk_type data off)) ∈ lower_names).

Definition iend_test (data : bytes) (off : Z) : bool :=
  bytes_eqb (chunk_type data off) IEND.

(** A complete chunk on its own: a header, and as many bytes as the header
    announces (12 + length). *)
Definition whole_chunk (c : bytes) : Prop :=
  8 <= len c /\ len c = 12 + chunk_length c 0.

(** ** The command line and the window ([parse_colour], [gui.py]) *)

(** Python built-ins and [pathlib] calls whose result is the library's:
    [int(text)] ([None] for [ValueError]), [text.strip()],
    [str(dir / f"{Path(input).stem}_wa.png")] and [str(exc)]. *)
Class Builtins := {
  py_int : string -> option Z;
  strip : string -> string;
  suggest_output : string -> string -> string;
  exn_text : exn -> string
}.

(** Iterating over a [str] yields its characters, as strings. *)
Definition chars (s : string) : list string :=
  map (fun c => String c EmptyString) (list_ascii_of_string s).

Inductive parsed (A : Type) : Type :=
  | Parsed (a : A)
  | ArgumentTypeError (msg : string).
Arguments Parsed {A} a.
Arguments ArgumentTypeError {A} msg.

Definition out_of_byte_range (v : Z) : bool := (v <? 0) || (v >? 255).

(** [parse_colour] (make_map.py, lines 227-236). *)
Definition parse_colour `{Builtins} (values : list string) : parsed colour :=
  match mapM py_int values with
  | Some [r; g; b] =>
      if existsb out_of_byte_range [r; g; b]
      then ArgumentTypeError "colour values must be between 0 and 255"
      else Parsed (r, g, b)
  | _ => ArgumentTypeError "colour must be three integers"
  end.

(** The variables of [MapGUI] (gui.py, lines 164-174). *)
Record map_gui := MapGUI {
  gui_input_path : string;
  gui_template_path : string;
  gui_output_path : string;
  gui_max_colours : string;
  gui_transparent_r : string;
  gui_transparent_g : string;
  gui_transparent_b : string;
  gui_no_transparency : bool;
  gui_dither : bool;
  gui_savedlevels_dir : option string
}.

Inductive dialog : Type :=
  | ShowError (title message : string)
  | ShowInfo (title message : string).

(** The window, the files behind it and the message boxes shown so far. *)
Record desktop := Desktop {
  d_gui : map_gui;
  d_world : world;
  d_dialogs : list dialog
}.

Definition showerror (title message : string) (d : desktop) : desktop :=
  Desktop (d_gui d) (d_world d) (d_dialogs d ++ [ShowError title message]).

Definition showinfo (title message : string) (d : desktop) : desktop :=
  Desktop (d_gui d) (d_world d) (d_dialogs d ++ [ShowInfo title message]).

(* self.output_path.set(path) *)
Definition set_output_path (path : string) (d : desktop) : desktop :=
  let g := d_gui d in
  Desktop (MapGUI (gui_input_path g) (gui_template_path g) path
             (gui_max_colours g) (gui_transparent_r g) (gui_transparent_g g)
             (gui_transparent_b g) (gui_no_transparency g) (gui_dither g)
             (gui_savedlevels_dir g))
          (d_world d) (d_dialogs d).

Definition set_world (w : world) (d : desktop) : desktop :=
  Desktop (d_gui d) w (d_dialogs d).

Definition is_empty (s : string) : bool :=
  match s with EmptyString => true | _ => false end.

Definition newline : string := String (ascii_of_N 10) EmptyString.

Section gui.
Context `{Pillow} `{Builtins}.

(** [MapGUI._parse_colour] (gui.py, lines 277-290). *)
Definition _parse_colour (d : desktop) : option colour * desktop :=
  let g := d_gui d in
  if gui_no_transparency g then (None, d) else
  match py_int (gui_transparent_r g), py_int (gui_transparent_g g),
        py_int (gui_transparent_b g) with
  | Some r, Some g_, Some b =>
      if existsb out_of_byte_range [r; g_; b]
      then (None, showerror "Invalid colour"
                    "Transparent colour values must be between 0 and 255." d)
      else (Some (r, g_, b), d)
  | _, _, _ =>
      (None, showerror "Invalid colour"
               "Transparent colour must be three integers (0-255)." d)
  end.

(** [MapGUI.run_conversion] (gui.py, lines 292-333). *)
Definition run_conversion (d : desktop) : outcome unit * desktop :=
  let g := d_gui d in
  let input_path := strip (gui_input_path g) in
  let output_path := strip (gui_output_path g) in
  let template_path :=
    if is_empty (strip (gui_template_path g)) then None
    else Some (strip (gui_template_path g)) in
  if is_empty input_path then
    (Returned tt, showerror "Missing input" "Please choose an input image." d)
  else
  let resolved :=
    if is_empty output_path then
      match gui_savedlevels_dir g with
      | Some dir =>
          let output_path := suggest_output dir input_path in
          Some (output_path, set_output_path output_path d)
      | None => None
      end
    else Some (output_path, d) in
  match resolved with
  | None =>
      (Returned tt, showerror "Missing output"
                      "Please choose where to save the output PNG." d)
  | Some (output_path, d) =>
      let max_cols :=
        match py_int (gui_max_colours g) with
        | Some m => if (m <? 1) || (m >? 112) then None else Some m
        | None => None
        end in
      match max_cols with
      | None =>
          (Returned tt, showerror "Invalid max colours"
                          "Max colours must be an integer between 1 and 112." d)
      | Some max_cols =>
          let '(transparent_colour, d) := _parse_colour d in
          if bool_decide (transparent_colour = None)
             && negb (gui_no_transparency g)
          then (Returned tt, d)
          else
            match convert_image input_path output_path template_path max_cols
                    transparent_colour (gui_dither g) (d_world d) with
            | (Returned _, w') =>
                (Returned tt,
                 showinfo "Success" ("Created map:" +:+ newline +:+ output_path)
                   (set_world w' d))
            | (Raised exc, w') =>
                (Returned tt,
                 showerror "Conversion failed"
                   ("Could not create map:" +:+ newline +:+ exn_text exc)
                   (set_world w' d))
            | (NoFuel, w') => (NoFuel, set_world w' d)
            end
      end
  end.

End gui.

(** Library calls end: they return or raise. *)
Definition library_ends `{Pillow} : Prop :=
  (forall data, image_decode data <> NoFuel) /\
  (forall a b, logical_and a b <> NoFuel).

(* the three colour entries retyped *)
Definition set_colour_fields (r g b : string) (d : desktop) : desktop :=
  let g0 := d_gui d in
  Desktop (MapGUI (gui_input_path g0) (gui_template_path g0) (gui_output_path g0)
             (gui_max_colours g0) r g b (gui_no_transparency g0) (gui_dither g0)
             (gui_savedlevels_dir g0))
          (d_world d) (d_dialogs d).

(** A colour the window lets through: none with transparency disabled,
    three values within 0..255 otherwise. *)
Definition valid_colour_choice (no_transparency : bool) (tc : option colour) : Prop :=
  match tc with
  | None => no_transparency = true
  | Some (r, g, b) =>
      no_transparency = false /\
      0 <= r <= 255 /\ 0 <= g <= 255 /\ 0 <= b <= 255
  end.

(** ** Looking for the game's folder (gui.py, lines 90-152) *)

(** Paths are values of a type [P] with decidable equality (what
    [lib in seen] uses); the state of the disk and of the machine is read
    through the functions below, and the candidate Steam roots are
    whatever [_steam_install_paths()] returns. *)
Class Machine (P : Type) `{Countable P} := {
  path_of : string -> P;             (* Path(text) *)
  child : P -> string -> P;          (* path / name *)
  is_dir : P -> bool;                (* path.is_dir() *)
  is_file : P -> bool;               (* path.is_file() *)
  (* the "path" values matched in the text of a libraryfolders.vdf, each
     expanded by expanduser(); a value that expanduser() cannot expand (it
     raises RuntimeError at line 105, outside the try) is not described *)
  vdf_paths : P -> list P;
  steam_install_paths : list P;      (* _steam_install_paths() *)
  os_name_nt : bool;                 (* os.name == "nt" *)
  is_wsl : bool;                     (* _is_wsl() *)
  environ : string -> option string  (* os.environ.get(name) *)
}.

Section discovery.
Context {P : Type} `{Machine P}.

(** Lines 93-108: the [steamapps] folders, in the order they are met. *)
Definition collect_libraries : list P :=
  flat_map (fun steam_root =>
    let steamapps := child steam_root "steamapps" in
    if is_dir steamapps then
      steamapps ::
      (let vdf := child steamapps "libraryfolders.vdf" in
       if is_file vdf then
         flat_map (fun lib =>
           let lib_apps := child lib "steamapps" in
           if is_dir lib_apps then [lib_apps] else [])
           (vdf_paths vdf)
       else [])
    else [])
    steam_install_paths.

(** Lines 109-118: drop repetitions, keeping the order. *)
Fixpoint deduplicate (libraries : list P) (seen : gset P) (unique : list P)
    : list P :=
  match libraries with
  | [] => unique
  | lib :: rest =>
      if bool_decide (lib ∈ seen) then deduplicate rest seen unique
      else deduplicate rest ({[lib]} ∪ seen) (unique ++ [lib])
  end.

Definition _steam_libraries : list P :=
  deduplicate collect_libraries ∅ [].

(** "Each once, in the order of first meeting", said without the loop: the
    first path stays where it is and is struck from what follows. *)
Fixpoint first_meetings (libraries : list P) : list P :=
  match libraries with
  | [] => []
  | lib :: rest => lib :: filter (fun other => other <> lib) (first_meetings rest)
  end.

(** The same, said by positions: whatever stands before [x] in [unique] is
    what was met before [x] was first met in [libraries]. *)
Definition in_order_of_first_meeting (libraries unique : list P) : Prop :=
  forall before x behind,
    unique = before ++ x :: behind ->
    exists met later,
      libraries = met ++ x :: later /\
      (x ∉ met) /\
      (forall z, z ∈ before <-> z ∈ met).

Definition wa_folder : string := "Worms Armageddon".

(** Lines 125-130: the first Steam library that holds the game. *)
Fixpoint first_steam_savedlevels (libs : list P) : option P :=
  match libs with
  | [] => None
  | lib :: rest =>
      let candidate := child (child lib "common") wa_folder in
      let saved := child (child candidate "User") "SavedLevels" in
      if is_dir candidate && is_dir saved then Some saved
      else first_steam_savedlevels rest
  end.

(** Lines 149-152: the first install root with a [SavedLevels] folder. *)
Fixpoint first_root_savedlevels (roots : list P) : option P :=
  match roots with
  | [] => None
  | root :: rest =>
      let saved := child (child root "User") "SavedLevels" in
      if is_dir saved then Some saved else first_root_savedlevels rest
  end.

(** A string counts as true when it is there and not empty. *)
Definition env_root (name : string) : list P :=
  match environ name with
  | Some (String c s) =>
      [child (child (path_of (String c s)) "Team17") wa_folder]
  | _ => []
  end.

(** Lines 132-148: the install roots tried outside Steam. *)
Definition potential_roots : list P :=
  if os_name_nt || is_wsl then
    env_root "PROGRAMFILES(X86)" ++ env_root "PROGRAMFILES"
    ++ [path_of "C:/Team17/Worms Armageddon";
        path_of "C:/Worms Armageddon";
        path_of "C:/GOG Games/Worms Armageddon"]
    ++ (if is_wsl then
          let win_c := path_of "/mnt/c" in
          [child (child win_c "Team17") wa_folder;
           child win_c wa_folder;
           child (child win_c "GOG Games") wa_folder]
        else [])
  else [].

Definition find_wa_savedlevels : option P :=
  match first_steam_savedlevels _steam_libraries with
  | Some saved => Some saved
  | None => first_root_savedlevels potential_roots
  end.

End discovery.

(** ** Small instances of the other interfaces *)

Module Desk.

(** What [str.strip()] and [int()] count as blank, among the ASCII
    characters: tab to carriage return, the four separators, the space. *)
Definition is_space (c : ascii) : bool :=
  let n := N_of_ascii c in
  ((9 <=? n) && (n <=? 13) || (28 <=? n) && (n <=? 32))%N.

Fixpoint lstrip (s : string) : string :=
  match s with
  | EmptyString => EmptyString
  | String c s' => if is_space c then lstrip s' else s
  end.

Fixpoint rstrip (s : string) : string :=
  match s with
  | EmptyString => EmptyString
  | String c s' =>
      match rstrip s' with
      | EmptyString => if is_space c then EmptyString else String c EmptyString
      | r => String c r
      end
  end.

Definition strip_blanks (s : string) : string := rstrip (lstrip s).

(** Decimal digits, with single underscores between digits. *)
Fixpoint digits (s : string) (acc : Z) (after_digit : bool) : option Z :=
  match s with
  | EmptyString => if after_digit then Some acc else None
  | String c s' =>
      let n := N_of_ascii c in
      if ((48 <=? n) && (n <=? 57))%N
      then digits s' (10 * acc + Z.of_N n - 48) true
      else if (n =? 95)%N && after_digit then digits s' acc false
      else None
  end.

(** [int(text)] on ASCII text: blanks around, an optional sign, digits. *)
Definition int (s : string) : option Z :=
  match strip_blanks s with
  | String "+" s' => digits s' 0 false
  | String "-" s' => Z.opp <$> digits s' 0 false
  | s' => digits s' 0 false
  end.

Definition text_of (e : exn) : string :=
  match e with
  | ValueError => "ValueError"
  | StructError => "struct.error"
  | FileNotFoundError => "FileNotFoundError"
  | UnidentifiedImageError => "UnidentifiedImageError"
  | OSError => "OSError"
  end.

Definition builtins : Builtins := {|
  py_int := int;
  strip := strip_blanks;
  suggest_output := fun dir input => dir +:+ "/" +:+ input +:+ "_wa.png";
  exn_text := text_of
|}.

Definition window (template max_colours : string) (no_transparency : bool)
    : map_gui :=
  MapGUI "in.raw" template "out.png" max_colours "0" "0" "0"
         no_transparency false None.

Definition desk (template max_colours : string) (no_transparency : bool)
    : desktop :=
  Desktop (window template max_colours no_transparency) Toy.world0 [].

(** The run behind the button, with the template map and transparency
    disabled; the same on a system whose standard output is closed. *)
Definition press : outcome unit * desktop :=
  @run_conversion Toy.lib builtins (desk "map.png" "112" true).

Definition press_closed_stdout : outcome unit * desktop :=
  @run_conversion Toy.lib builtins
    (Desktop (window "map.png" "112" true) Toy.world_closed_stdout []).

Definition missing_input : outcome unit * world :=
  @convert_image Toy.lib "nowhere.raw" "out.png" None 112 None false Toy.world0.

(** A disk with one Steam root whose library file names a second library
    (and the root itself again); the game sits in the second library. *)
Definition directories : list string :=
  ["/home/u/.steam/steam/steamapps";
   "/games/steamapps";
   "/games/steamapps/common/Worms Armageddon";
   "/games/steamapps/common/Worms Armageddon/User/SavedLevels"].

Definition machine : Machine string := {|
  path_of := fun s => s;
  child := fun p name => p +:+ "/" +:+ name;
  is_dir := fun p => bool_decide (p ∈ directories);
  is_file := fun p =>
    bool_decide (p = "/home/u/.steam/steam/steamapps/libraryfolders.vdf");
  vdf_paths := fun _ => ["/home/u/.steam/steam"; "/games"];
  steam_install_paths := ["/home/u/.steam/steam"; "/home/u/Steam"];
  os_name_nt := false;
  is_wsl := false;
  environ := fun _ => None
|}.

(** A machine with no Steam and no game on it. *)
Definition bare_machine : Machine string := {|
  path_of := fun s => s;
  child := fun p name => p +:+ "/" +:+ name;
  is_dir := fun _ => false;
  is_file := fun _ => false;
  vdf_paths := fun _ => [];
  steam_install_paths := ["/home/u/.steam/steam"];
  os_name_nt := true;
  is_wsl := false;
  environ := fun name =>
    if String.eqb name "PROGRAMFILES" then Some "C:/Program Files"%string else None
|}.

End Desk.


(** ** Slices *)

Section slices.
Implicit Types (d : bytes) (lo hi off : Z).

Lemma len_nonneg d : 0 <= len d.
Proof. unfold len. lia. Qed.

Lemma len_app d1 d2 : len (d1 ++ d2) = len d1 + len d2.
Proof. unfold len. rewrite length_app. lia. Qed.

Lemma slice_len d lo hi :
  0 <= lo -> lo <= hi ->
  len (slice d lo hi) = Z.min hi (len d) - Z.min lo (len d).
Proof.
  intros Hlo Hhi. unfold slice, adjust, len.
  destruct (Z.ltb_spec lo 0); [lia|].
  destruct (Z.ltb_spec hi 0); [lia|].
  rewrite length_take, length_drop. lia.
Qed.

Lemma slice_split d off :
  0 <= off -> slice_to d off ++ slice_from d off = d.
Proof.
  intros Hoff. unfold slice_to, slice_from, slice, adjust.
  pose proof (len_nonneg d) as Hn.
  destruct (Z.ltb_spec off 0); [lia|].
  destruct (Z.ltb_spec (len d) 0); [lia|].
  change (0 <? 0) with false. cbv iota.
  rewrite (Z.min_l 0) by lia. rewrite Z.sub_0_r. change (Z.to_nat 0) with 0%nat.
  rewrite drop_0.
  rewrite (Z.min_id (len d)).
  rewrite (take_ge (drop _ _)).
  2:{ rewrite length_drop. unfold len. lia. }
  apply take_drop.
Qed.

Lemma slice_to_end d off hi :
  0 <= off -> len d <= hi -> slice d off hi = slice_from d off.
Proof.
  intros Hoff Hhi. unfold slice_from, slice, adjust.
  pose proof (len_nonneg d) as Hn.
  destruct (Z.ltb_spec off 0); [lia|].
  destruct (Z.ltb_spec hi 0); [lia|].
  destruct (Z.ltb_spec (len d) 0); [lia|].
  rewrite (Z.min_r hi) by lia. rewrite (Z.min_id (len d)). reflexivity.
Qed.

(** Consecutive slices glue together. *)
Lemma slice_app d lo mid hi :
  0 <= lo -> lo <= mid -> mid <= hi ->
  slice d lo mid ++ slice d mid hi = slice d lo hi.
Proof.
  intros H1 H2 H3. unfold slice, adjust.
  pose proof (len_nonneg d) as Hn.
  destruct (Z.ltb_spec lo 0); [lia|].
  destruct (Z.ltb_spec mid 0); [lia|].
  destruct (Z.ltb_spec hi 0); [lia|].
  assert (Ha : exists a, a = Z.min lo (len d)) by eauto.
  assert (Hb : exists b, b = Z.min mid (len d)) by eauto.
  assert (Hc : exists c, c = Z.min hi (len d)) by eauto.
  destruct Ha as [a Ha], Hb as [b Hb], Hc as [c Hc].
  rewrite <- Ha, <- Hb, <- Hc.
  replace (Z.to_nat b) with (Z.to_nat a + Z.to_nat (b - a))%nat by lia.
  rewrite <- drop_drop.
  replace (Z.to_nat (c - a)) with (Z.to_nat (b - a) + Z.to_nat (c - b))%nat by lia.
  apply take_take_drop.
Qed.

Lemma lor_bound (a b k : Z) :
  0 <= a < 2 ^ k -> 0 <= b < 2 ^ k -> 0 <= Z.lor a b < 2 ^ k.
Proof.
  intros Ha Hb.
  assert (H0 : 0 <= Z.lor a b) by (apply Z.lor_nonneg; lia).
  split; [exact H0|].
  destruct (Z.eq_dec (Z.lor a b) 0) as [->|Hne]; [lia|].
  destruct (Z.le_gt_cases k 0) as [Hk|Hk].
  { assert (2 ^ k <= 1).
    { destruct (Z.eq_dec k 0) as [->|]; [simpl; lia|].
      rewrite Z.pow_neg_r by lia. lia. }
    assert (a = 0) by lia. assert (b = 0) by lia. subst a b. exfalso. apply Hne. reflexivity. }
  apply Z.log2_lt_pow2; [lia|].
  rewrite Z.log2_lor by lia.
  apply Z.max_lub_lt.
  - destruct (Z.eq_dec a 0) as [->|]; [simpl; lia|].
    apply Z.log2_lt_pow2; lia.
  - destruct (Z.eq_dec b 0) as [->|]; [simpl; lia|].
    apply Z.log2_lt_pow2; lia.
Qed.

Lemma byte_val_bound (x : byte) : 0 <= byte_val x < 256.
Proof. unfold byte_val. pose proof (Byte.to_N_bounded x). lia. Qed.

Lemma unpack_be32_four (b : bytes) :
  length b = 4%nat ->
  exists n, unpack_be32 b = Returned n /\ 0 <= n < 4294967296.
Proof.
  intros Hb.
  destruct b as [|b0 [|b1 [|b2 [|b3 [|b4 b5]]]]]; simpl in Hb; try lia.
  eexists; split; [reflexivity|].
  pose proof (byte_val_bound b0). pose proof (byte_val_bound b1).
  pose proof (byte_val_bound b2). pose proof (byte_val_bound b3).
  change 4294967296 with (2 ^ 32).
  repeat apply lor_bound; rewrite ?Z.shiftl_mul_pow2 by lia;
    change (2 ^ 32) with 4294967296; change (2 ^ 24) with 16777216;
    change (2 ^ 16) with 65536; change (2 ^ 8) with 256; lia.
Qed.

End slices.

(** ** Walking the chunk sequence *)

Section scan.
Variable data : bytes.
Implicit Types (off start o t : Z) (fuel : nat).

Lemma unpack_be32_range (b : bytes) n :
  unpack_be32 b = Returned n -> 0 <= n < 4294967296.
Proof.
  intros Hn.
  destruct b as [|b0 [|b1 [|b2 [|b3 [|b4 b5]]]]]; try discriminate.
  destruct (unpack_be32_four [b0; b1; b2; b3] eq_refl) as (m & Hm & Hr).
  congruence.
Qed.

Lemma chunk_length_range off : 0 <= chunk_length data off < 4294967296.
Proof.
  unfold chunk_length.
  destruct (unpack_be32 _) eqn:E; try lia.
  eapply unpack_be32_range; eauto.
Qed.

(** Inside the loop guard the four length bytes are there, so
    [struct.unpack] cannot fail. *)
Lemma header_read off :
  0 <= off -> off + 8 <= len data ->
  unpack_be32 (slice data off (off + 4)) = Returned (chunk_length data off).
Proof.
  intros H0 H8. unfold chunk_length.
  destruct (unpack_be32_four (slice data off (off + 4))) as (n & -> & _);
    [|reflexivity].
  pose proof (slice_len data off (off + 4)) as Hl. unfold len in *. lia.
Qed.

Lemma reach_ge start o : scan_reaches data start o -> start <= o.
Proof.
  induction 1 as [|off _ IH Hh]; [lia|].
  pose proof (chunk_length_range off). lia.
Qed.

Lemma reach_inv start o :
  scan_reaches data start o ->
  o = start \/
  (start + 8 <= len data /\
   scan_reaches data (start + 12 + chunk_length data start) o).
Proof.
  induction 1 as [|off Hr IH Hh]; [by left|].
  right. destruct IH as [->|[Hs IH]].
  - split; [done|]. constructor.
  - split; [done|]. by constructor.
Qed.

Lemma reach_skip start o :
  start + 8 <= len data ->
  scan_reaches data (start + 12 + chunk_length data start) o ->
  scan_reaches data start o.
Proof.
  intros Hs. induction 1 as [|off Hr IH Hh].
  - constructor; [constructor|done].
  - by constructor.
Qed.

Lemma enough_scan_fuel : enough data (scan_fuel data) 8.
Proof.
  unfold enough, scan_fuel. pose proof (len_nonneg data) as Hn.
  rewrite Z2Nat.id by (pose proof (Z.div_pos (len data) 12); lia).
  pose proof (Z.mod_pos_bound (len data) 12).
  pose proof (Z.div_mod (len data) 12). lia.
Qed.

Lemma first_hit_spec p fuel off :
  0 <= off -> enough data fuel off ->
  (exists t, first_hit data fuel p off = Returned (Some t) /\
     scan_reaches data off t /\ t + 8 <= len data /\ p t = true /\
     forall o, scan_reaches data off o -> o < t -> p o = false)
  \/ (first_hit data fuel p off = Returned None /\
      forall o, scan_reaches data off o -> o + 8 <= len data -> p o = false).
Proof.
  revert off. induction fuel as [|fuel IH]; intros off H0 Hen; simpl.
  - destruct (Z.leb_spec (off + 8) (len data)) as [Hh|Hh].
    { unfold enough in Hen. lia. }
    right. split; [done|]. intros o Ho. apply reach_ge in Ho. lia.
  - destruct (Z.leb_spec (off + 8) (len data)) as [Hh|Hh].
    2:{ right. split; [done|]. intros o Ho. apply reach_ge in Ho. lia. }
    pose proof (chunk_length_range off) as Hl.
    destruct (p off) eqn:Hp.
    + left. exists off. split; [done|]. split; [constructor|].
      split; [done|]. split; [done|].
      intros o Ho. apply reach_ge in Ho. lia.
    + destruct (IH (off + 12 + chunk_length data off)) as
        [(t & Ht & Hr & Hh' & Hpt & Hmin)|[Hn Hall]].
      * lia.
      * unfold enough in *. lia.
      * left. exists t. split; [done|]. split; [by apply reach_skip|].
        split; [done|]. split; [done|].
        intros o Ho Hlt. apply reach_inv in Ho as [->|[_ Ho]]; [done|].
        by apply Hmin.
      * right. split; [done|].
        intros o Ho Hoh. apply reach_inv in Ho as [->|[_ Ho]]; [done|].
        by apply Hall.
Qed.

Lemma find_loop_first_hit lower_names fuel off :
  0 <= off ->
  find_custom_chunk_loop fuel data lower_names off =
  let! hit := first_hit data fuel (name_test data lower_names) off in
  Returned ((fun t => slice data t (t + 8 + chunk_length data t + 4)) <$> hit).
Proof.
  revert off. induction fuel as [|fuel IH]; intros off H0; simpl.
  - by destruct (_ <=? _).
  - destruct (Z.leb_spec (off + 8) (len data)) as [Hh|Hh]; [|done].
    rewrite header_read by done. simpl.
    unfold name_test at 1, chunk_type.
    destruct (bool_decide _); [done|].
    pose proof (chunk_length_range off).
    replace (off + 8 + chunk_length data off + 4)
      with (off + 12 + chunk_length data off) by lia.
    apply IH. lia.
Qed.

Lemma insert_loop_first_hit chunk fuel off :
  0 <= off ->
  insert_chunk_loop fuel data chunk off =
  let! hit := first_hit data fuel (iend_test data) off in
  Returned (match hit with
            | Some t => slice_to data t ++ chunk ++ slice_from data t
            | None => data ++ chunk
            end).
Proof.
  revert off. induction fuel as [|fuel IH]; intros off H0; simpl.
  - by destruct (_ <=? _).
  - destruct (Z.leb_spec (off + 8) (len data)) as [Hh|Hh]; [|done].
    rewrite header_read by done. simpl.
    unfold iend_test at 1, chunk_type.
    destruct (bytes_eqb _ _); [done|].
    pose proof (chunk_length_range off).
    replace (off + (8 + chunk_length data off + 4))
      with (off + 12 + chunk_length data off) by lia.
    apply IH. lia.
Qed.

End scan.

(** ** The two chunk routines *)

Section chunk_routines.
Implicit Types (data png_data chunk : bytes) (names : list string) (off : Z).

Lemma first_chunk_unique data (P : Z -> Prop) off off' :
  first_chunk data P off -> first_chunk data P off' -> off = off'.
Proof.
  intros (Hc & HP & Hmin) (Hc' & HP' & Hmin').
  destruct (Z.lt_trichotomy off off') as [Hlt|[->|Hlt]]; [|done|].
  - exfalso. exact (Hmin' off Hc Hlt HP).
  - exfalso. exact (Hmin off' Hc' Hlt HP').
Qed.

Lemma first_hit_mono data p fuel fuel' off r :
  (fuel <= fuel')%nat ->
  first_hit data fuel p off = Returned r ->
  first_hit data fuel' p off = Returned r.
Proof.
  revert fuel' off. induction fuel as [|fuel IH]; intros fuel' off Hle; simpl.
  - destruct fuel'; simpl; destruct (_ <=? _); done.
  - destruct fuel' as [|fuel']; [lia|]. simpl.
    destruct (_ <=? _); [|done].
    destruct (p off); [done|]. apply IH. lia.
Qed.

(** With enough fuel the walk from offset 8 ends, on the first chunk
    accepted by the test or on none. *)
Lemma first_hit_chunk data p (P : Z -> Prop) fuel :
  (forall off, p off = true <-> P off) ->
  (scan_fuel data <= fuel)%nat ->
  (exists t, first_hit data fuel p 8 = Returned (Some t) /\ first_chunk data P t)
  \/ (first_hit data fuel p 8 = Returned None /\
      forall off, is_chunk data off -> ~ P off).
Proof.
  intros Hp Hfuel.
  destruct (first_hit_spec data p (scan_fuel data) 8) as
    [(t & Ht & Hr & Hh & Hpt & Hmin)|[Hn Hall]];
    [lia|apply enough_scan_fuel| |].
  - left. exists t. split; [by eapply first_hit_mono|].
    split; [done|]. split; [by apply Hp|].
    intros o [Ho _] Hlt HP. apply Hp in HP. rewrite Hmin in HP; done.
  - right. split; [by eapply first_hit_mono|].
    intros o [Ho Hoh] HP. apply Hp in HP. rewrite Hall in HP; done.
Qed.

Lemma name_test_matches data names off :
  name_test data (list_to_set (map lower names)) off = true <->
  type_matches names data off.
Proof.
  unfold name_test, type_matches.
  rewrite bool_decide_eq_true, elem_of_list_to_set, list_elem_of_In, in_map_iff.
  split; intros (name & H1 & H2); exists name.
  - by rewrite list_elem_of_In.
  - by rewrite <- list_elem_of_In.
Qed.

Lemma to_N_inj (a b : byte) : Byte.to_N a = Byte.to_N b -> a = b.
Proof.
  intros Hab. pose proof (Byte.of_to_N a) as Ha.
  rewrite Hab, Byte.of_to_N in Ha. congruence.
Qed.

Lemma bytes_eqb_eq (a b : bytes) : bytes_eqb a b = true <-> a = b.
Proof.
  unfold bytes_eqb. rewrite bool_decide_eq_true. split; [|by intros ->].
  revert b. induction a as [|x a IH]; intros [|y b] Hab; try done.
  simpl in Hab. injection Hab as Hxy Hab.
  f_equal; [by apply to_N_inj|by apply IH].
Qed.

Lemma iend_test_IEND data off :
  iend_test data off = true <-> type_is_IEND data off.
Proof. apply bytes_eqb_eq. Qed.

Lemma find_custom_chunk_cases data names :
  (exists off, first_chunk data (type_matches names data) off /\
     find_custom_chunk data names =
       Returned (Some (slice data off (off + 12 + chunk_length data off))))
  \/ ((forall off, is_chunk data off -> ~ type_matches names data off) /\
      find_custom_chunk data names = Returned None).
Proof.
  unfold find_custom_chunk. rewrite find_loop_first_hit by lia.
  destruct (first_hit_chunk data
              (name_test data (list_to_set (map lower names)))
              (type_matches names data) (scan_fuel data))
    as [(t & -> & Ht)|[-> Hnone]];
    [apply name_test_matches|lia| |].
  - left. exists t. split; [done|]. simpl.
    by replace (t + 8 + chunk_length data t + 4)
      with (t + 12 + chunk_length data t) by lia.
  - by right.
Qed.

Lemma insert_chunk_cases png_data chunk :
  (exists off, first_chunk png_data (type_is_IEND png_data) off /\
     insert_chunk_before_iend png_data chunk =
       Returned (slice_to png_data off ++ chunk ++ slice_from png_data off))
  \/ ((forall off, is_chunk png_data off -> ~ type_is_IEND png_data off) /\
      insert_chunk_before_iend png_data chunk = Returned (png_data ++ chunk)).
Proof.
  unfold insert_chunk_before_iend. rewrite insert_loop_first_hit by lia.
  destruct (first_hit_chunk png_data (iend_test png_data)
              (type_is_IEND png_data) (scan_fuel png_data))
    as [(t & -> & Ht)|[-> Hnone]];
    [apply iend_test_IEND|lia| |].
  - left. by exists t.
  - by right.
Qed.

Lemma is_chunk_ge data off : is_chunk data off -> 8 <= off.
Proof. intros [Hr _]. by apply reach_ge in Hr. Qed.

Lemma slice_to_len data off :
  0 <= off <= len data -> len (slice_to data off) = off.
Proof.
  intros Hoff. unfold slice_to. rewrite slice_len by lia. lia.
Qed.

Lemma slice_from_type data off :
  0 <= off -> off + 8 <= len data ->
  slice (slice_from data off) 4 8 = chunk_type data off.
Proof.
  intros H0 Hh. unfold chunk_type, slice_from, slice, adjust.
  pose proof (len_nonneg data) as Hn.
  assert (Hd : len (drop (Z.to_nat off) data) = len data - off).
  { unfold len. rewrite length_drop. unfold len in Hh. lia. }
  repeat match goal with
         | |- context [?a <? 0] => destruct (Z.ltb_spec a 0); [lia|]
         end.
  rewrite (Z.min_id (len data)).
  rewrite (Z.min_l off) by lia.
  rewrite (take_ge (drop (Z.to_nat off) data)).
  2:{ rewrite length_drop. unfold len in *. lia. }
  rewrite Hd. rewrite !Z.min_l by lia.
  rewrite drop_drop. f_equal; [lia|]. f_equal. lia.
Qed.

(** C6 (as amended): [find_custom_chunk] walks the chunks from offset 8
    and returns [data[off : off + 12 + length]] for the first chunk whose
    type code equals one of the names up to case: the 4 length bytes, the
    4 type bytes, the payload and the 4 CRC bytes (12 + length bytes)
    when the data holds them all, and otherwise the bytes from the start
    of the chunk to the end of the data.  When no chunk matches it
    returns [None]. *)
Theorem find_custom_chunk_first_match data names :
  (exists off,
     let n := chunk_length data off in
     let c := slice data off (off + 12 + n) in
     first_chunk data (type_matches names data) off /\
     find_custom_chunk data names = Returned (Some c) /\
     len c = Z.min (12 + n) (len data - off) /\
     (off + 12 + n <= len data ->
      len c = 12 + n /\
      c = slice data off (off + 4) ++ chunk_type data off
          ++ slice data (off + 8) (off + 8 + n)
          ++ slice data (off + 8 + n) (off + 12 + n)))
  \/ ((forall off, is_chunk data off -> ~ type_matches names data off) /\
      find_custom_chunk data names = Returned None).
Proof.
  destruct (find_custom_chunk_cases data names) as [(off & Hf & Hr)|H];
    [left|by right].
  exists off. cbv zeta. split; [done|]. split; [done|].
  destruct Hf as (Hc & _). pose proof (is_chunk_ge _ _ Hc) as H8.
  destruct Hc as [_ Hh]. pose proof (chunk_length_range data off) as Hn.
  assert (Hlen : len (slice data off (off + 12 + chunk_length data off))
                 = Z.min (12 + chunk_length data off) (len data - off)).
  { rewrite slice_len by lia. lia. }
  split; [done|]. intros Hwhole. split; [lia|].
  unfold chunk_type.
  rewrite !slice_app by lia. reflexivity.
Qed.

(** C7: [insert_chunk_before_iend] returns the data with the chunk
    inserted immediately before the first chunk of type IEND met by the
    walk from offset 8, and with the chunk appended at the end when the
    walk meets no IEND chunk. *)
Theorem insert_chunk_before_first_iend png_data chunk :
  (exists off,
     first_chunk png_data (type_is_IEND png_data) off /\
     insert_chunk_before_iend png_data chunk =
       Returned (slice_to png_data off ++ chunk ++ slice_from png_data off) /\
     slice_to png_data off ++ slice_from png_data off = png_data /\
     len (slice_to png_data off) = off /\
     slice (slice_from png_data off) 4 8 = IEND)
  \/ ((forall off, is_chunk png_data off -> ~ type_is_IEND png_data off) /\
      insert_chunk_before_iend png_data chunk = Returned (png_data ++ chunk)).
Proof.
  destruct (insert_chunk_cases png_data chunk) as [(off & Hf & Hr)|H];
    [left|by right].
  exists off. split; [done|]. split; [done|].
  destruct Hf as (Hc & HI & _). pose proof (is_chunk_ge _ _ Hc) as H8.
  destruct Hc as [_ Hh].
  split; [apply slice_split; lia|].
  split; [apply slice_to_len; lia|].
  rewrite <- HI. apply slice_from_type; lia.
Qed.

(** C9: the result of [insert_chunk_before_iend] is
    [prefix ++ chunk ++ suffix] with [prefix ++ suffix] the original
    data, so it is [len(chunk)] bytes longer and every original byte is
    kept in order. *)
Theorem insert_chunk_preserves_bytes png_data chunk :
  exists pre suf,
    insert_chunk_before_iend png_data chunk = Returned (pre ++ chunk ++ suf) /\
    pre ++ suf = png_data /\
    len (pre ++ chunk ++ suf) = len png_data + len chunk.
Proof.
  assert (Hlen : forall pre suf, pre ++ suf = png_data ->
            len (pre ++ chunk ++ suf) = len png_data + len chunk).
  { intros pre suf <-. rewrite !len_app. lia. }
  destruct (insert_chunk_cases png_data chunk) as [(off & Hf & Hr)|[_ Hr]].
  - destruct Hf as (Hc & _). pose proof (is_chunk_ge _ _ Hc) as H8.
    assert (Hs := slice_split png_data off ltac:(lia)).
    exists (slice_to png_data off), (slice_from png_data off).
    split; [done|]. split; [done|]. by apply Hlen.
  - exists png_data, []. rewrite !app_nil_r.
    split; [done|]. split; [done|].
    specialize (Hlen png_data [] (app_nil_r _)). by rewrite app_nil_r in Hlen.
Qed.

(** C8: both loops end on every input.  A loop body is entered only with
    a complete header at [off], where [struct.unpack] succeeds and the
    next offset is at least 12 further; so [len(data) / 12 + 1]
    executions of the body (the fuel) are enough for both loops to
    return. *)
Theorem scan_loops_terminate data names chunk fuel :
  (Z.to_nat (len data / 12 + 1) <= fuel)%nat ->
  (exists r, find_custom_chunk_loop fuel data (list_to_set (map lower names)) 8
             = Returned r /\ find_custom_chunk data names = Returned r) /\
  (exists r, insert_chunk_loop fuel data chunk 8 = Returned r /\
             insert_chunk_before_iend data chunk = Returned r) /\
  (forall off, 0 <= off -> off + 8 <= len data ->
     exists length,
       unpack_be32 (slice data off (off + 4)) = Returned length /\
       off + 12 <= off + 8 + length + 4).
Proof.
  intros Hfuel. change (scan_fuel data <= fuel)%nat in Hfuel.
  split; [|split].
  - unfold find_custom_chunk. rewrite !find_loop_first_hit by lia.
    destruct (first_hit_chunk data
                (name_test data (list_to_set (map lower names)))
                (type_matches names data) (scan_fuel data))
      as [(t & Ht & _)|[Ht _]]; [apply name_test_matches|lia| |];
      rewrite Ht, (first_hit_mono _ _ _ _ _ _ Hfuel Ht); simpl; eauto.
  - unfold insert_chunk_before_iend. rewrite !insert_loop_first_hit by lia.
    destruct (first_hit_chunk data (iend_test data)
                (type_is_IEND data) (scan_fuel data))
      as [(t & Ht & _)|[Ht _]]; [apply iend_test_IEND|lia| |];
      rewrite Ht, (first_hit_mono _ _ _ _ _ _ Hfuel Ht); simpl; eauto.
  - intros off H0 Hh. exists (chunk_length data off).
    split; [by apply header_read|].
    pose proof (chunk_length_range data off). lia.
Qed.

(** C10: [find_custom_chunk] returns on every byte string and never
    raises; when the declared length of the matched chunk runs past the
    end of the data, the result is the shorter slice from the start of
    the chunk to the end of the data. *)
Theorem find_custom_chunk_total data names :
  (exists r, find_custom_chunk data names = Returned r) /\
  (forall off,
     first_chunk data (type_matches names data) off ->
     len data < off + 12 + chunk_length data off ->
     find_custom_chunk data names = Returned (Some (slice_from data off)) /\
     len (slice_from data off) = len data - off /\
     len (slice_from data off) < 12 + chunk_length data off).
Proof.
  destruct (find_custom_chunk_cases data names) as [(t & Hf & Hr)|[Hnone Hr]].
  - split; [eauto|]. intros off Hoff Hshort.
    rewrite (first_chunk_unique _ _ _ _ Hoff Hf) in *.
    destruct Hf as (Hc & _). pose proof (is_chunk_ge _ _ Hc) as H8.
    destruct Hc as [_ Hh].
    rewrite Hr, slice_to_end by lia.
    split; [done|].
    unfold slice_from. rewrite slice_len by lia. lia.
  - split; [eauto|]. intros off (Hc & Hm & _). by destruct (Hnone off).
Qed.

(** Reading the first chunk off an evaluation of the walk. *)
Lemma first_match_by_scan data names t :
  first_hit data (scan_fuel data)
    (name_test data (list_to_set (map lower names))) 8 = Returned (Some t) ->
  first_chunk data (type_matches names data) t.
Proof.
  intros Ht.
  destruct (first_hit_chunk data
              (name_test data (list_to_set (map lower names)))
              (type_matches names data) (scan_fuel data))
    as [(t' & Ht' & Hf)|[Ht' _]]; [apply name_test_matches|lia| |];
    congruence.
Qed.

Lemma no_match_by_scan data names :
  first_hit data (scan_fuel data)
    (name_test data (list_to_set (map lower names))) 8 = Returned None ->
  forall off, is_chunk data off -> ~ type_matches names data off.
Proof.
  intros Ht.
  destruct (first_hit_chunk data
              (name_test data (list_to_set (map lower names)))
              (type_matches names data) (scan_fuel data))
    as [(t' & Ht' & Hf)|[_ Hn]]; [apply name_test_matches|lia| |];
    [congruence|done].
Qed.

Lemma first_iend_by_scan data t :
  first_hit data (scan_fuel data) (iend_test data) 8 = Returned (Some t) ->
  first_chunk data (type_is_IEND data) t.
Proof.
  intros Ht.
  destruct (first_hit_chunk data (iend_test data)
              (type_is_IEND data) (scan_fuel data))
    as [(t' & Ht' & Hf)|[Ht' _]]; [apply iend_test_IEND|lia| |];
    congruence.
Qed.

End chunk_routines.

(** C6 as stated fails on a file cut off inside the matched chunk: the
    header at offset 8 announces 5 payload bytes, so the chunk is 17
    bytes, and the 8 bytes that are there are returned. *)
Lemma find_custom_chunk_truncated_counterexample :
  first_chunk Toy.truncated_file
    (type_matches ["w2lv"; "walv"]%string Toy.truncated_file) 8 /\
  chunk_length Toy.truncated_file 8 = 5 /\
  ~ (exists c, find_custom_chunk Toy.truncated_file ["w2lv"; "walv"]%string
               = Returned (Some c) /\
               len c = 12 + chunk_length Toy.truncated_file 8).
Proof.
  split; [apply first_match_by_scan; vm_compute; reflexivity|].
  split; [reflexivity|].
  intros (c & Hc & Hlen).
  vm_compute in Hc. injection Hc as <-. vm_compute in Hlen. discriminate.
Qed.

Lemma scan_loops_terminate_witness :
  (Z.to_nat (len Toy.template_file / 12 + 1) <= 5)%nat /\
  (exists r, insert_chunk_loop 5 Toy.template_file Toy.w2lv_chunk 8 = Returned r /\
             insert_chunk_before_iend Toy.template_file Toy.w2lv_chunk = Returned r).
Proof.
  assert (H : (Z.to_nat (len Toy.template_file / 12 + 1) <= 5)%nat)
    by (vm_compute; lia).
  split; [exact H|].
  exact (proj1 (proj2 (scan_loops_terminate Toy.template_file
                         ["w2lv"; "walv"]%string Toy.w2lv_chunk 5 H))).
Defined.

Lemma find_custom_chunk_total_witness :
  first_chunk Toy.truncated_file
    (type_matches ["w2lv"; "walv"]%string Toy.truncated_file) 8 /\
  len Toy.truncated_file < 8 + 12 + chunk_length Toy.truncated_file 8 /\
  find_custom_chunk Toy.truncated_file ["w2lv"; "walv"]%string
    = Returned (Some (slice_from Toy.truncated_file 8)).
Proof.
  assert (H1 : first_chunk Toy.truncated_file
            (type_matches ["w2lv"; "walv"]%string Toy.truncated_file) 8)
    by (apply first_match_by_scan; vm_compute; reflexivity).
  assert (H2 : len Toy.truncated_file < 8 + 12 + chunk_length Toy.truncated_file 8)
    by (vm_compute; reflexivity).
  split; [exact H1|]. split; [exact H2|].
  exact (proj1 (proj2 (find_custom_chunk_total Toy.truncated_file
                         ["w2lv"; "walv"]%string) 8 H1 H2)).
Defined.

(** ** Runs of [convert_image] *)

Section runs.
Context `{Pillow}.
Implicit Types (w : world) (png : bytes) (path : string).
Local Arguments find_custom_chunk : simpl never.
Local Arguments insert_chunk_before_iend : simpl never.
Local Arguments to_indexed : simpl never.

Lemma copy_template_chunk_found png path w tbytes c :
  w_files w !! path = Some tbytes ->
  find_custom_chunk tbytes ["w2lv"; "walv"]%string = Returned (Some c) ->
  c <> [] ->
  copy_template_chunk png (Some path) w =
    (insert_chunk_before_iend png c, after w [EvIsFile path; EvOpenRead path]).
Proof.
  intros Hf Hc Hne.
  cbv beta iota delta [copy_template_chunk bind isfile read_file log lift ret].
  simpl. repeat (rewrite Hf; simpl). rewrite Hc.
  destruct c; [done|]. simpl. unfold after. by rewrite <- app_assoc.
Qed.

Lemma copy_template_chunk_absent png path w tbytes :
  w_files w !! path = Some tbytes ->
  find_custom_chunk tbytes ["w2lv"; "walv"]%string = Returned None ->
  copy_template_chunk png (Some path) w =
    (Returned png, after w [EvIsFile path; EvOpenRead path]).
Proof.
  intros Hf Hc.
  cbv beta iota delta [copy_template_chunk bind isfile read_file log lift ret].
  simpl. repeat (rewrite Hf; simpl). rewrite Hc.
  unfold after. by rewrite <- app_assoc.
Qed.

Lemma copy_template_chunk_inv png tp w r w1 :
  copy_template_chunk png tp w = (Returned r, w1) ->
  w_files w1 = w_files w /\
  (r = png \/ exists c, insert_chunk_before_iend png c = Returned r).
Proof.
  unfold copy_template_chunk. destruct tp as [path|].
  2:{ unfold ret. intros [= <- <-]. auto. }
  cbv beta iota delta [bind isfile read_file log lift ret]. simpl.
  destruct (w_files w !! path) as [tbytes|] eqn:Hf; simpl.
  2:{ intros [= <- <-]. auto. }
  repeat (rewrite Hf; simpl).
  destruct (find_custom_chunk tbytes _) as [[c|]| |]; try discriminate.
  - destruct c as [|b c]; simpl.
    + intros [= <- <-]. auto.
    + intros [= Hi <-]. eauto.
  - intros [= <- <-]. auto.
Qed.

(** The template step asks the system for nothing it can refuse. *)
Lemma copy_template_chunk_refusals png tp w o w1 :
  copy_template_chunk png tp w = (o, w1) -> w_refusals w1 = w_refusals w.
Proof.
  unfold copy_template_chunk. destruct tp as [path|].
  2:{ unfold ret. by intros [= <- <-]. }
  cbv beta iota delta [bind isfile read_file log lift ret]. simpl.
  destruct (w_files w !! path) as [tbytes|] eqn:Hf; simpl.
  2:{ by intros [= <- <-]. }
  repeat (rewrite Hf; simpl).
  destruct (find_custom_chunk tbytes _) as [[c|]| |];
    try (by intros [= <- <-]).
  destruct c as [|b c]; simpl; by intros [= <- <-].
Qed.

Lemma convert_image_inv input_path output_path template_path max_colours
    transparent_colour dither w w' :
  convert_image input_path output_path template_path max_colours
    transparent_colour dither w = (Returned tt, w') ->
  1 <= max_colours <= 112 /\
  exists data src q t png w1,
    w_files w !! input_path = Some data /\
    image_decode data = Returned src /\
    to_indexed src max_colours transparent_colour dither = Returned (q, t) /\
    copy_template_chunk (save_png q t) template_path
      (after w [EvOpenRead input_path]) = (Returned png, w1) /\
    lets_through w output_path /\
    w' = World (<[output_path := png]> (w_files w1))
           (w_trace w1 ++ [EvWrite output_path png;
                           EvPrint ("Created W:A map: " +:+ output_path)])
           (w_refusals w).
Proof.
  unfold convert_image.
  destruct ((max_colours <? 1) || (max_colours >? 112)) eqn:Hrange;
    [discriminate|].
  apply orb_false_elim in Hrange as [H1 H2].
  intros Hrun. split; [lia|]. revert Hrun.
  cbv beta iota delta [bind read_file write_file print log lift ret]. simpl.
  destruct (w_files w !! input_path) as [data|] eqn:Hf; [|discriminate].
  destruct (image_decode data) as [src| |] eqn:Hd; try discriminate.
  destruct (to_indexed src _ _ _) as [[q t]| |] eqn:Hq; try discriminate.
  fold (after w [EvOpenRead input_path]).
  destruct (copy_template_chunk _ _ _) as [[png| |] w1] eqn:Hc; try discriminate.
  pose proof (copy_template_chunk_refusals _ _ _ _ _ Hc) as Hr. simpl in Hr.
  rewrite Hr.
  destruct (open_wb_error _ _) eqn:Ho; [discriminate|].
  destruct (write_error _ _) as [[n e]|] eqn:Hwr; [discriminate|]. simpl.
  destruct (print_error _ _) eqn:Hp; [discriminate|].
  intros [= <-]. exists data, src, q, t, png, w1.
  repeat split; try done. by rewrite <- app_assoc.
Qed.

(** A successful run, in terms of what was decoded and what was saved. *)
Lemma convert_image_writes input_path output_path template_path max_colours
    transparent_colour dither w w' :
  convert_image input_path output_path template_path max_colours
    transparent_colour dither w = (Returned tt, w') ->
  1 <= max_colours <= 112 /\
  exists src q t png,
    writes input_path output_path max_colours transparent_colour dither
      w w' src q t png.
Proof.
  intros Hrun. apply convert_image_inv in Hrun
    as (Hrange & data & src & q & t & png & w1 & Hf & Hd & Hq & Hc & _ & ->).
  split; [done|]. exists src, q, t, png. unfold writes.
  apply copy_template_chunk_inv in Hc as [_ Hpng].
  split; [eauto|]. split; [done|]. split; [|done].
  simpl. apply lookup_insert_eq.
Qed.

End runs.

(** ** The image pipeline *)

Section pipeline.
Context `{Pillow}.
Local Arguments find_custom_chunk : simpl never.
Local Arguments insert_chunk_before_iend : simpl never.

Lemma size_eqb_eq (a b : size_t) : size_eqb a b = true <-> a = b.
Proof.
  destruct a as [a1 a2], b as [b1 b2]. unfold size_eqb. simpl.
  rewrite andb_true_iff, !Z.eqb_eq. split; [intros [-> ->]|intros [= -> ->]]; done.
Qed.

Lemma py_or_spec (n : Z) : spec_dimension n (py_or (n / 8 * 8) 8).
Proof.
  exists (n / 8 * 8). split; [|reflexivity].
  pose proof (Z.div_mod n 8 ltac:(lia)) as Hdm.
  pose proof (Z.mod_pos_bound n 8 ltac:(lia)) as Hm.
  split; [by exists (n / 8)|]. split; [lia|].
  intros k [j ->] Hk.
  assert (j <= n / 8) by (apply Z.div_le_lower_bound; lia).
  lia.
Qed.

Lemma ensure_divisible_by_8_spec (w h : Z) :
  ensure_divisible_by_8 (w, h) =
    (if w / 8 * 8 =? 0 then 8 else w / 8 * 8,
     if h / 8 * 8 =? 0 then 8 else h / 8 * 8) /\
  spec_dimension w (ensure_divisible_by_8 (w, h)).1 /\
  spec_dimension h (ensure_divisible_by_8 (w, h)).2.
Proof.
  split; [reflexivity|]. split; apply py_or_spec.
Qed.

Lemma apply_transparency_size src tc src' :
  apply_transparency src tc = Returned src' -> im_size src' = im_size src.
Proof.
  unfold apply_transparency. destruct tc as [[[r g] b]|]; [|by intros [= <-]].
  simpl.
  destruct (logical_and _ _) as [inner| |]; try discriminate. simpl.
  destruct (logical_and _ _) as [mask| |]; try discriminate. simpl.
  by intros [= <-].
Qed.

Lemma entries_app3 (l : list Z) (r g b : Z) :
  listlen (l ++ [r; g; b]) / 3 = listlen l / 3 + 1.
Proof.
  unfold listlen. rewrite length_app. simpl.
  replace (Z.of_nat (length l + 3)) with (Z.of_nat (length l) + 1 * 3) by lia.
  by rewrite Z.div_add by lia.
Qed.

Lemma add_transparent_entry_inv q0 tc q t :
  add_transparent_entry q0 tc = Returned (q, t) ->
  p_size q = p_size q0 /\ p_indices q = p_indices q0 /\
  match tc with
  | None => q = q0 /\ t = None
  | Some (r, g, b) =>
      (palette_entries q0 < 256 /\
       p_palette q = p_palette q0 ++ [r; g; b] /\
       palette_entries q = palette_entries q0 + 1 /\
       t = Some (palette_entries q0))
      \/ (256 <= palette_entries q0 /\ q = q0 /\ t = Some 0)
  end.
Proof.
  unfold add_transparent_entry, palette_entries, getpalette.
  destruct tc as [[[r g] b]|]; [|by intros [= <- <-]].
  destruct (Z.ltb_spec (listlen (p_palette q0) / 3) 256) as [Hlt|Hge].
  - unfold putpalette. destruct (forallb _ _); [|discriminate]. simpl.
    intros [= <- <-]. simpl. split; [done|]. split; [done|]. left.
    rewrite entries_app3. repeat split; try done. f_equal. lia.
  - intros [= <- <-]. split; [done|]. split; [done|]. by right.
Qed.

Lemma to_indexed_inv src max_colours tc dither q t :
  to_indexed src max_colours tc dither = Returned (q, t) ->
  exists src1 src2,
    src1 = (if negb (size_eqb (ensure_divisible_by_8 (im_size src)) (im_size src))
            then resize_nearest src (ensure_divisible_by_8 (im_size src))
            else src) /\
    apply_transparency src1 tc = Returned src2 /\
    add_transparent_entry (quantize (convert_RGB src2) max_colours dither) tc
      = Returned (q, t).
Proof.
  unfold to_indexed. cbv zeta.
  destruct (apply_transparency _ tc) as [src2| |] eqn:Ha; try discriminate.
  simpl. intros Hq. eauto.
Qed.

(** C3: the image written by [convert_image] has, in each dimension,
    [(n // 8) * 8] if that is not zero and 8 otherwise, for [n] the
    dimension of the input: the largest multiple of 8 not exceeding
    [n], or 8 when that would be 0.  (The library is taken to resize to
    the size it is asked for and to keep the size when quantising.) *)
Theorem convert_image_output_size input_path output_path template_path
    max_colours transparent_colour dither w w' :
  resize_law -> quantize_size_law ->
  convert_image input_path output_path template_path max_colours
    transparent_colour dither w = (Returned tt, w') ->
  exists src q t png,
    writes input_path output_path max_colours transparent_colour dither
      w w' src q t png /\
    p_size q = ensure_divisible_by_8 (im_size src) /\
    (p_size q).1 = (if (im_size src).1 / 8 * 8 =? 0 then 8
                    else (im_size src).1 / 8 * 8) /\
    (p_size q).2 = (if (im_size src).2 / 8 * 8 =? 0 then 8
                    else (im_size src).2 / 8 * 8) /\
    spec_dimension (im_size src).1 (p_size q).1 /\
    spec_dimension (im_size src).2 (p_size q).2.
Proof.
  intros Hresize Hquant Hrun.
  apply convert_image_writes in Hrun as (_ & src & q & t & png & Hw).
  exists src, q, t, png. split; [done|].
  destruct Hw as (_ & Hq & _).
  apply to_indexed_inv in Hq as (src1 & src2 & Hs1 & Ha & Hq).
  apply add_transparent_entry_inv in Hq as (Hsize & _).
  apply apply_transparency_size in Ha.
  assert (Hs : p_size q = ensure_divisible_by_8 (im_size src)).
  { rewrite Hsize, Hquant. simpl. rewrite Ha, Hs1.
    destruct (size_eqb _ _) eqn:He; simpl.
    - apply size_eqb_eq in He. by symmetry.
    - apply Hresize. }
  split; [done|]. rewrite Hs.
  destruct (im_size src) as [wd ht]. simpl.
  destruct (ensure_divisible_by_8_spec wd ht) as (_ & H1 & H2).
  repeat split; done.
Qed.

(** C5: with [max_colours] below 1 or above 112, [convert_image] raises
    [ValueError] in a world it has not touched: no file was read or
    written, and nothing else was done. *)
Theorem convert_image_rejects_max_colours input_path output_path
    template_path max_colours transparent_colour dither w :
  max_colours < 1 \/ max_colours > 112 ->
  convert_image input_path output_path template_path max_colours
    transparent_colour dither w = (Raised ValueError, w).
Proof.
  intros Hrange. unfold convert_image.
  destruct ((max_colours <? 1) || (max_colours >? 112)) eqn:E; [done|].
  apply orb_false_elim in E as [H1 H2]. lia.
Qed.

(** With a transparent colour the pipeline stops at line 176: the masks
    handed to [logical_and] are bands of mode "L". *)
Lemma apply_transparency_raises src colour_ :
  logical_and_mode_law ->
  apply_transparency src (Some colour_) = Raised ValueError.
Proof.
  intros Hmode. destruct colour_ as [[r g] b].
  unfold apply_transparency. simpl. by rewrite Hmode.
Qed.

Lemma to_indexed_raises src max_colours colour_ dither :
  logical_and_mode_law ->
  to_indexed src max_colours (Some colour_) dither = Raised ValueError.
Proof.
  intros Hmode. unfold to_indexed. cbv zeta.
  by rewrite apply_transparency_raises.
Qed.

(** C1 fails on the code: with a transparent colour given, [convert_image]
    calls [ImageChops.logical_and] on the mode "L" masks made by [point]
    (line 176), which raises [ValueError].  So on every input that can be
    read and decoded the run stops there: nothing but the reading of the
    input has happened, no image is quantised and no file is written, and
    no pixel is made transparent. *)
Theorem convert_image_transparency_raises input_path output_path template_path
    max_colours colour_ dither w data src :
  logical_and_mode_law ->
  1 <= max_colours <= 112 ->
  w_files w !! input_path = Some data ->
  image_decode data = Returned src ->
  convert_image input_path output_path template_path max_colours
    (Some colour_) dither w
  = (Raised ValueError, after w [EvOpenRead input_path]).
Proof.
  intros Hmode Hrange Hf Hd. unfold convert_image.
  destruct ((max_colours <? 1) || (max_colours >? 112)) eqn:E.
  { apply orb_true_elim in E as [E|E]; lia. }
  cbv beta iota delta [bind read_file log lift ret]. simpl.
  rewrite Hf, Hd. by rewrite to_indexed_raises.
Qed.

(** C2 holds without a transparent colour and fails with one.  With
    [max_colours] in 1..112 and a quantiser that returns at most the number
    of colours asked for, a run without transparent colour writes a palette
    of at most [max_colours] entries and designates none as transparent.
    With a transparent colour the lines that add the extra palette entry
    (192-203) are never reached, because line 176 raises first: the run
    does not return and leaves every file as it was. *)
Theorem convert_image_palette_entries input_path output_path template_path
    max_colours dither :
  logical_and_mode_law -> quantize_palette_law ->
  1 <= max_colours <= 112 ->
  (forall w w',
     convert_image input_path output_path template_path max_colours
       None dither w = (Returned tt, w') ->
     exists src q png,
       writes input_path output_path max_colours None dither w w' src q None png /\
       palette_entries q <= max_colours) /\
  (forall src colour_,
     to_indexed src max_colours (Some colour_) dither = Raised ValueError) /\
  (forall colour_ w o w',
     convert_image input_path output_path template_path max_colours
       (Some colour_) dither w = (o, w') ->
     o <> Returned tt /\ w_files w' = w_files w).
Proof.
  intros Hmode Hpal Hrange. split; [|split].
  - intros w w' Hrun.
    apply convert_image_writes in Hrun as (_ & src & q & t & png & Hw).
    pose proof Hw as (_ & Hq & _).
    apply to_indexed_inv in Hq as (src1 & src2 & Hs1 & Ha & Hq).
    specialize (Hpal (convert_RGB src2) max_colours dither ltac:(lia)).
    apply add_transparent_entry_inv in Hq as (_ & _ & Hq0 & Ht).
    subst t. exists src, q, png. split; [done|]. by rewrite Hq0.
  - intros src colour_. by apply to_indexed_raises.
  - intros colour_ w o w'. unfold convert_image.
    destruct ((max_colours <? 1) || (max_colours >? 112)) eqn:E.
    { apply orb_true_elim in E as [E|E]; lia. }
    cbv beta iota delta [bind read_file log lift ret]. simpl.
    destruct (w_files w !! input_path) as [data|]; [|by intros [= <- <-]].
    destruct (image_decode data) as [src| |]; try (by intros [= <- <-]).
    rewrite to_indexed_raises by done. by intros [= <- <-].
Qed.

End pipeline.

(** ** The template chunk *)

Section template.
Context `{Pillow}.
Local Arguments find_custom_chunk : simpl never.
Local Arguments insert_chunk_before_iend : simpl never.
Local Arguments to_indexed : simpl never.

Lemma convert_image_run input_path output_path template_path max_colours
    transparent_colour dither w data src q t r w1 :
  1 <= max_colours <= 112 ->
  w_files w !! input_path = Some data ->
  image_decode data = Returned src ->
  to_indexed src max_colours transparent_colour dither = Returned (q, t) ->
  copy_template_chunk (save_png q t) template_path
    (after w [EvOpenRead input_path]) = (Returned r, w1) ->
  lets_through w output_path ->
  convert_image input_path output_path template_path max_colours
    transparent_colour dither w =
    (Returned tt,
     World (<[output_path := r]> (w_files w1))
           (w_trace w1 ++ [EvWrite output_path r;
                           EvPrint ("Created W:A map: " +:+ output_path)])
           (w_refusals w)).
Proof.
  intros Hrange Hf Hd Hq Hc (Ho & Hwr & Hp). unfold convert_image.
  destruct ((max_colours <? 1) || (max_colours >? 112)) eqn:E.
  { apply orb_true_elim in E as [E|E]; lia. }
  cbv beta iota delta [bind read_file write_file print log lift ret]. simpl.
  rewrite Hf, Hd, Hq. fold (after w [EvOpenRead input_path]). rewrite Hc.
  pose proof (copy_template_chunk_refusals _ _ _ _ _ Hc) as Hr. simpl in Hr.
  rewrite Hr, Ho, Hwr. simpl. rewrite Hp.
  by rewrite <- app_assoc.
Qed.

(** C4: take a run without template that leaves [png] in the output
    file, and run again with a template that is an existing file.  If
    the template has a chunk whose type code is w2lv or waLV up to case,
    the output is [png] with the raw bytes of the first such chunk
    inserted immediately before the IEND chunk of [png]; if it has none,
    the output files are the same as without template. *)
Theorem convert_image_copies_template_chunk input_path output_path path
    max_colours transparent_colour dither w w0 png tbytes :
  convert_image input_path output_path None max_colours
    transparent_colour dither w = (Returned tt, w0) ->
  w_files w0 !! output_path = Some png ->
  w_files w !! path = Some tbytes ->
  (forall off iend,
     first_chunk tbytes (type_matches ["w2lv"; "waLV"]%string tbytes) off ->
     first_chunk png (type_is_IEND png) iend ->
     exists w1,
       convert_image input_path output_path (Some path) max_colours
         transparent_colour dither w = (Returned tt, w1) /\
       w_files w1 !! output_path =
         Some (slice_to png iend
               ++ slice tbytes off (off + 12 + chunk_length tbytes off)
               ++ slice_from png iend) /\
       slice (slice_from png iend) 4 8 = IEND) /\
  ((forall off, is_chunk tbytes off ->
      ~ type_matches ["w2lv"; "waLV"]%string tbytes off) ->
   exists w1,
     convert_image input_path output_path (Some path) max_colours
       transparent_colour dither w = (Returned tt, w1) /\
     w_files w1 = w_files w0).
Proof.
  intros Hrun Hpng Hfile.
  apply convert_image_inv in Hrun
    as (Hrange & data & src & q & t & png0 & w1 & Hf & Hd & Hq & Hc & Hlet & ->).
  unfold copy_template_chunk, ret in Hc. injection Hc as <- <-.
  simpl in Hpng. rewrite lookup_insert_eq in Hpng. injection Hpng as <-.
  assert (Hsame : forall off,
            type_matches ["w2lv"; "waLV"]%string tbytes off <->
            type_matches ["w2lv"; "walv"]%string tbytes off).
  { intros off. unfold type_matches. split; intros (name & Hin & Hl).
    - exists (lower name). split.
      + set_unfold. destruct Hin as [->|[->|[]]]; auto.
      + rewrite <- Hl. set_unfold. by destruct Hin as [->|[->|[]]].
    - set_unfold. destruct Hin as [->|[->|[]]].
      + exists "w2lv"%string. auto.
      + exists "waLV"%string. auto. }
  split.
  - intros off iend Hoff Hiend.
    destruct (find_custom_chunk_cases tbytes ["w2lv"; "walv"]%string)
      as [(off' & Hoff' & Hfind)|[Hnone _]].
    2:{ destruct Hoff as (Hc & Hm & _). destruct (Hnone off Hc).
        by apply Hsame. }
    assert (off' = off) as ->.
    { eapply first_chunk_unique; [exact Hoff'|].
      destruct Hoff as (Hc & Hm & Hmin). split; [done|].
      split; [by apply Hsame|]. intros o Ho Hlt Hmo. apply (Hmin o Ho Hlt).
      by apply Hsame. }
    destruct (insert_chunk_cases (save_png q t)
                (slice tbytes off (off + 12 + chunk_length tbytes off)))
      as [(iend' & Hiend' & Hins)|[Hnone _]].
    2:{ destruct Hiend as (Hc & Hm & _). by destruct (Hnone iend Hc). }
    rewrite (first_chunk_unique _ _ _ _ Hiend' Hiend) in *.
    assert (Hne : slice tbytes off (off + 12 + chunk_length tbytes off) <> []).
    { destruct Hoff' as (Hc & _). pose proof (is_chunk_ge _ _ Hc).
      destruct Hc as [_ Hh]. pose proof (chunk_length_range tbytes off).
      intros Hnil.
      assert (Hl : len (slice tbytes off (off + 12 + chunk_length tbytes off)) = 0)
        by (by rewrite Hnil).
      rewrite slice_len in Hl by lia. lia. }
    eexists. split.
    + eapply (convert_image_run _ _ _ _ _ _ _ data src q t);
        [done|done|done|done| |done].
      rewrite (copy_template_chunk_found (save_png q t) path
                 (after w [EvOpenRead input_path]) tbytes _ Hfile Hfind Hne).
      rewrite Hins. reflexivity.
    + split; [simpl; apply lookup_insert_eq|].
      destruct Hiend as (Hc & HI & _). pose proof (is_chunk_ge _ _ Hc).
      destruct Hc as [_ Hh]. rewrite <- HI. apply slice_from_type; lia.
  - intros Hnone.
    destruct (find_custom_chunk_cases tbytes ["w2lv"; "walv"]%string)
      as [(off' & Hoff' & _)|[_ Hfind]].
    { destruct Hoff' as (Hc & Hm & _). destruct (Hnone off' Hc).
      by apply Hsame. }
    eexists. split.
    + eapply (convert_image_run _ _ _ _ _ _ _ data src q t);
        [done|done|done|done| |done].
      by rewrite (copy_template_chunk_absent (save_png q t) path
                    (after w [EvOpenRead input_path]) tbytes Hfile Hfind).
    + reflexivity.
Qed.

End template.

(** ** The small library instance meets the laws *)

Module ToyFacts.
Import Toy.

Lemma resize_ok : @resize_law lib.
Proof.
  intros im size. simpl. unfold resize.
  by destruct (im_size im), size.
Qed.

Lemma quantize_size_ok : @quantize_size_law lib.
Proof. by intros im colors dither. Qed.

Lemma triples_len (pal : list colour) :
  listlen (flat_map (fun '(r, g, b) => [r; g; b]) pal) = 3 * listlen pal.
Proof.
  unfold listlen. induction pal as [|[[r g] b] pal IH]; simpl in *; lia.
Qed.

Lemma palette_entries_quantise im colors dither :
  palette_entries (quantise im colors dither)
  = listlen (take (Z.to_nat colors) (distinct [] (rgb_pixels im))).
Proof.
  unfold palette_entries, quantise. simpl. rewrite triples_len.
  rewrite Z.mul_comm. apply Z.div_mul. lia.
Qed.

Lemma quantize_palette_ok : @quantize_palette_law lib.
Proof.
  intros im colors dither Hc. simpl. rewrite palette_entries_quantise.
  unfold listlen. rewrite length_take. lia.
Qed.

Lemma logical_and_mode_ok : @logical_and_mode_law lib.
Proof. by intros a b. Qed.

End ToyFacts.

(** ** The theorems at concrete runs *)

(** The all-black 8x8 input with black as the transparent colour, which
    is also what [convert_image] and the command line take when no colour
    is given. *)
Lemma convert_image_transparency_raises_witness :
  1 <= 112 <= 112 /\
  w_files Toy.world0 !! "in.raw"%string = Some (Toy.flat_file 8 8 x00 x00 x00) /\
  @image_decode Toy.lib (Toy.flat_file 8 8 x00 x00 x00)
    = Returned (Image (8, 8) (replicate 64 (0, 0, 0, 255))) /\
  Toy.run_black = (Raised ValueError, after Toy.world0 [EvOpenRead "in.raw"]).
Proof.
  assert (Hrange : 1 <= 112 <= 112) by lia.
  assert (Hf : w_files Toy.world0 !! "in.raw"%string
               = Some (Toy.flat_file 8 8 x00 x00 x00))
    by (vm_compute; reflexivity).
  assert (Hd : @image_decode Toy.lib (Toy.flat_file 8 8 x00 x00 x00)
               = Returned (Image (8, 8) (replicate 64 (0, 0, 0, 255))))
    by (vm_compute; reflexivity).
  split; [exact Hrange|]. split; [exact Hf|]. split; [exact Hd|].
  exact (@convert_image_transparency_raises Toy.lib "in.raw" "out.png" None 112
           (0, 0, 0) false Toy.world0 _ _
           ToyFacts.logical_and_mode_ok Hrange Hf Hd).
Defined.

Lemma convert_image_palette_entries_witness :
  1 <= 112 <= 112 /\
  (forall w w',
     @convert_image Toy.lib "in.raw" "out.png" None 112 None false w
       = (Returned tt, w') ->
     exists src q png,
       @writes Toy.lib "in.raw" "out.png" 112 None false w w' src q None png /\
       palette_entries q <= 112) /\
  (forall src colour_,
     @to_indexed Toy.lib src 112 (Some colour_) false = Raised ValueError) /\
  (forall colour_ w o w',
     @convert_image Toy.lib "in.raw" "out.png" None 112 (Some colour_) false w
       = (o, w') ->
     o <> Returned tt /\ w_files w' = w_files w).
Proof.
  assert (Hrange : 1 <= 112 <= 112) by lia.
  split; [exact Hrange|].
  exact (@convert_image_palette_entries Toy.lib "in.raw" "out.png" None 112 false
           ToyFacts.logical_and_mode_ok ToyFacts.quantize_palette_ok Hrange).
Defined.

Lemma convert_image_output_size_witness :
  Toy.run_9x17 = (Returned tt, Toy.run_9x17.2) /\
  exists src q t png,
    @writes Toy.lib "in9.raw" "out.png" 112 None false
      Toy.world0 Toy.run_9x17.2 src q t png /\
    p_size q = ensure_divisible_by_8 (im_size src) /\
    (p_size q).1 = (if (im_size src).1 / 8 * 8 =? 0 then 8
                    else (im_size src).1 / 8 * 8) /\
    (p_size q).2 = (if (im_size src).2 / 8 * 8 =? 0 then 8
                    else (im_size src).2 / 8 * 8) /\
    spec_dimension (im_size src).1 (p_size q).1 /\
    spec_dimension (im_size src).2 (p_size q).2.
Proof.
  assert (Hrun : Toy.run_9x17 = (Returned tt, Toy.run_9x17.2))
    by (vm_compute; reflexivity).
  split; [exact Hrun|].
  exact (@convert_image_output_size Toy.lib "in9.raw" "out.png" None 112
           None false Toy.world0 Toy.run_9x17.2
           ToyFacts.resize_ok ToyFacts.quantize_size_ok Hrun).
Defined.

Lemma convert_image_rejects_max_colours_witness :
  (113 < 1 \/ 113 > 112) /\
  @convert_image Toy.lib "in.raw" "out.png" (Some "map.png"%string) 113
    (Some (0, 0, 0)) false Toy.world0 = (Raised ValueError, Toy.world0).
Proof.
  assert (Hrange : 113 < 1 \/ 113 > 112) by (right; lia).
  split; [exact Hrange|].
  exact (@convert_image_rejects_max_colours Toy.lib "in.raw" "out.png"
           (Some "map.png"%string) 113 (Some (0, 0, 0)) false Toy.world0 Hrange).
Defined.

Lemma convert_image_copies_template_chunk_witness :
  Toy.run_solid = (Returned tt, Toy.run_solid.2) /\
  w_files Toy.run_solid.2 !! "out.png"%string = Some Toy.png_solid /\
  w_files Toy.world0 !! "map.png"%string = Some Toy.template_file /\
  first_chunk Toy.template_file
    (type_matches ["w2lv"; "waLV"]%string Toy.template_file) 21 /\
  first_chunk Toy.png_solid (type_is_IEND Toy.png_solid) 124 /\
  exists w1,
    Toy.run_solid_template = (Returned tt, w1) /\
    w_files w1 !! "out.png"%string =
      Some (slice_to Toy.png_solid 124 ++ Toy.w2lv_chunk
            ++ slice_from Toy.png_solid 124) /\
    slice (slice_from Toy.png_solid 124) 4 8 = IEND.
Proof.
  assert (Hrun : Toy.run_solid = (Returned tt, Toy.run_solid.2))
    by (vm_compute; reflexivity).
  assert (Hpng : w_files Toy.run_solid.2 !! "out.png"%string = Some Toy.png_solid)
    by (vm_compute; reflexivity).
  assert (Hfile : w_files Toy.world0 !! "map.png"%string = Some Toy.template_file)
    by (vm_compute; reflexivity).
  assert (Hoff : first_chunk Toy.template_file
            (type_matches ["w2lv"; "waLV"]%string Toy.template_file) 21)
    by (apply first_match_by_scan; vm_compute; reflexivity).
  assert (Hiend : first_chunk Toy.png_solid (type_is_IEND Toy.png_solid) 124)
    by (apply first_iend_by_scan; vm_compute; reflexivity).
  split; [exact Hrun|]. split; [exact Hpng|]. split; [exact Hfile|].
  split; [exact Hoff|]. split; [exact Hiend|].
  exact (proj1 (@convert_image_copies_template_chunk Toy.lib "in.raw" "out.png"
                  "map.png" 112 None false Toy.world0
                  Toy.run_solid.2 Toy.png_solid Toy.template_file
                  Hrun Hpng Hfile) 21 124 Hoff Hiend).
Defined.

(** ** More on slices *)

Section more_slices.
Implicit Types (d pre rest : bytes) (lo hi off : Z).

Lemma slice_all d : slice d 0 (len d) = d.
Proof.
  unfold slice, adjust. pose proof (len_nonneg d) as Hn.
  change (0 <? 0) with false. cbv iota.
  destruct (Z.ltb_spec (len d) 0); [lia|].
  rewrite (Z.min_l 0) by lia. rewrite Z.min_id, Z.sub_0_r.
  change (Z.to_nat 0) with 0%nat. rewrite drop_0.
  apply take_ge. unfold len. lia.
Qed.

(** A slice that ends inside the first part of a concatenation. *)
Lemma slice_app_l pre rest lo hi :
  0 <= lo -> lo <= hi -> hi <= len pre ->
  slice (pre ++ rest) lo hi = slice pre lo hi.
Proof.
  intros H0 Hle Hhi. unfold slice, adjust. rewrite len_app.
  pose proof (len_nonneg pre) as Hp. pose proof (len_nonneg rest) as Hr.
  destruct (Z.ltb_spec lo 0); [lia|]. destruct (Z.ltb_spec hi 0); [lia|].
  rewrite !Z.min_l by lia.
  rewrite drop_app_le by (unfold len in *; lia).
  apply take_app_le. rewrite length_drop. unfold len in *. lia.
Qed.

(** A slice that starts after the first part of a concatenation. *)
Lemma slice_app_r pre rest lo hi :
  len pre <= lo -> len pre <= hi ->
  slice (pre ++ rest) lo hi = slice rest (lo - len pre) (hi - len pre).
Proof.
  intros Hlo Hle. unfold slice, adjust. rewrite len_app.
  pose proof (len_nonneg pre) as Hp. pose proof (len_nonneg rest) as Hr.
  destruct (Z.ltb_spec lo 0); [lia|]. destruct (Z.ltb_spec hi 0); [lia|].
  destruct (Z.ltb_spec (lo - len pre) 0); [lia|].
  destruct (Z.ltb_spec (hi - len pre) 0); [lia|].
  rewrite drop_app_ge by (unfold len in *; lia).
  f_equal; [lia|]. f_equal. unfold len in *. lia.
Qed.

Lemma slice_to_app pre rest off :
  len pre <= off -> slice_to (pre ++ rest) off = pre ++ slice_to rest (off - len pre).
Proof.
  intros Hoff. unfold slice_to. pose proof (len_nonneg pre) as Hp.
  rewrite <- (slice_app (pre ++ rest) 0 (len pre) off) by lia.
  rewrite slice_app_l by lia. rewrite slice_all.
  rewrite slice_app_r by lia. by rewrite Z.sub_diag.
Qed.

Lemma slice_from_app pre rest off :
  len pre <= off -> slice_from (pre ++ rest) off = slice_from rest (off - len pre).
Proof.
  intros Hoff. unfold slice_from. pose proof (len_nonneg rest) as Hr.
  rewrite slice_app_r by (rewrite ?len_app; lia).
  f_equal. rewrite len_app. lia.
Qed.

Lemma slice_prefix_exact pre rest : slice (pre ++ rest) 0 (len pre) = pre.
Proof.
  pose proof (len_nonneg pre). rewrite slice_app_l by lia. apply slice_all.
Qed.

(** A slice of a slice. *)
Lemma slice_slice d lo hi x y :
  0 <= lo -> 0 <= x -> x <= y -> lo + y <= hi -> lo + y <= len d ->
  slice (slice d lo hi) x y = slice d (lo + x) (lo + y).
Proof.
  intros H0 Hx Hxy Hhi Hlen.
  rewrite <- (slice_app d lo (lo + x) hi) by lia.
  rewrite <- (slice_app d (lo + x) (lo + y) hi) by lia.
  assert (Hl1 : len (slice d lo (lo + x)) = x) by (rewrite slice_len by lia; lia).
  assert (Hl2 : len (slice d (lo + x) (lo + y)) = y - x)
    by (rewrite slice_len by lia; lia).
  rewrite slice_app_r by lia. rewrite Hl1, Z.sub_diag.
  rewrite <- Hl2. apply slice_prefix_exact.
Qed.

End more_slices.

(** ** More on the chunk walk *)

Section more_scan.
Implicit Types (data png chunk pre suf : bytes) (names : list string).
Implicit Types (off o a b s k : Z).

Lemma slice_empty data lo : 0 <= lo -> slice data lo lo = [].
Proof.
  intros H0. unfold slice. by rewrite Z.sub_diag.
Qed.

(** The offsets met by the walk form a chain. *)
Lemma reach_linear data s a b :
  scan_reaches data s a -> scan_reaches data s b ->
  scan_reaches data a b \/ scan_reaches data b a.
Proof.
  intros Ha Hb. induction Ha as [|off Hoff IH Hh]; [by left|].
  destruct IH as [IH|IH].
  - apply reach_inv in IH as [->|[_ IH]]; [|by left].
    right. constructor; [constructor|done].
  - right. by constructor.
Qed.

Lemma reach_next_le data s a b :
  scan_reaches data s a -> scan_reaches data s b -> a < b ->
  a + 8 <= len data /\ a + 12 + chunk_length data a <= b.
Proof.
  intros Ha Hb Hlt.
  destruct (reach_linear data s a b Ha Hb) as [H|H].
  - apply reach_inv in H as [->|[Hh H]]; [lia|].
    split; [done|]. by apply reach_ge in H.
  - apply reach_ge in H. lia.
Qed.

(** The walk only depends on the headers it reads. *)
Lemma reach_transfer d1 d2 k s o :
  (forall a, s <= a -> a + 8 <= k -> chunk_length d1 a = chunk_length d2 a) ->
  k <= len d2 ->
  scan_reaches d1 s o -> o <= k -> scan_reaches d2 s o.
Proof.
  intros Hsame Hk Hr. induction Hr as [|off Hoff IH Hh]; intros Hok.
  - constructor.
  - pose proof (chunk_length_range d1 off) as Hl.
    pose proof (reach_ge _ _ _ Hoff) as Hs.
    rewrite Hsame by lia. constructor; [apply IH; lia|lia].
Qed.

Lemma header_app_l pre r1 r2 o :
  0 <= o -> o + 8 <= len pre ->
  chunk_length (pre ++ r1) o = chunk_length (pre ++ r2) o /\
  chunk_type (pre ++ r1) o = chunk_type (pre ++ r2) o.
Proof.
  intros H0 Hh. unfold chunk_length, chunk_type.
  by rewrite !slice_app_l by lia.
Qed.

Lemma header_app_r pre rest o :
  len pre <= o ->
  chunk_length (pre ++ rest) o = chunk_length rest (o - len pre) /\
  chunk_type (pre ++ rest) o = chunk_type rest (o - len pre).
Proof.
  intros Ho. unfold chunk_length, chunk_type.
  rewrite !slice_app_r by lia.
  replace (o + 4 - len pre) with (o - len pre + 4) by lia.
  replace (o + 8 - len pre) with (o - len pre + 8) by lia.
  done.
Qed.

Lemma first_hit_congr d1 d2 (p1 p2 : Z -> bool) :
  len d1 = len d2 ->
  (forall off, 8 <= off -> chunk_length d1 off = chunk_length d2 off) ->
  (forall off, 8 <= off -> p1 off = p2 off) ->
  forall fuel off, 8 <= off ->
    first_hit d1 fuel p1 off = first_hit d2 fuel p2 off.
Proof.
  intros Hlen Hl Hp fuel. induction fuel as [|fuel IH]; intros off H8; simpl.
  - by rewrite Hlen.
  - rewrite Hlen, Hp, Hl by done. destruct (_ <=? _); [|done].
    destruct (p2 off); [done|]. apply IH.
    pose proof (chunk_length_range d2 off). lia.
Qed.

Lemma find_never_stuck data names :
  exists r, find_custom_chunk data names = Returned r.
Proof.
  destruct (find_custom_chunk_cases data names) as [(off & _ & ->)|[_ ->]]; eauto.
Qed.

Lemma insert_never_stuck png chunk :
  exists r, insert_chunk_before_iend png chunk = Returned r.
Proof.
  destruct (insert_chunk_cases png chunk) as [(off & _ & ->)|[_ ->]]; eauto.
Qed.

(** What the insertion point looks like: the data splits at the end
    marker, and every chunk before it lies wholly before it. *)
Lemma iend_split png iend :
  first_chunk png (type_is_IEND png) iend ->
  exists pre suf,
    png = pre ++ suf /\ len pre = iend /\ 8 <= iend /\ 8 <= len suf /\
    pre = slice_to png iend /\ suf = slice_from png iend /\
    chunk_type suf 0 = IEND.
Proof.
  intros (Hc & HI & _). pose proof (is_chunk_ge _ _ Hc) as H8.
  destruct Hc as [_ Hh].
  exists (slice_to png iend), (slice_from png iend).
  assert (Hsplit := slice_split png iend ltac:(lia)).
  assert (Hpre := slice_to_len png iend ltac:(lia)).
  split; [done|]. split; [done|]. split; [done|].
  split.
  { assert (Hl : len png = len (slice_to png iend) + len (slice_from png iend))
      by (by rewrite <- len_app, Hsplit).
    lia. }
  split; [done|]. split; [done|].
  unfold chunk_type at 1. simpl. rewrite <- HI. apply slice_from_type; lia.
Qed.

End more_scan.

(** ** Splicing and finding again *)

Section splice.
Implicit Types (data png chunk pre suf : bytes) (names : list string).
Implicit Types (off o iend : Z).

Lemma walk_agree pre (r1 r2 : bytes) :
  scan_reaches (pre ++ r1) 8 (len pre) ->
  scan_reaches (pre ++ r2) 8 (len pre) /\
  forall o, o < len pre -> scan_reaches (pre ++ r1) 8 o ->
    scan_reaches (pre ++ r2) 8 o /\ o + 12 <= len pre /\
    chunk_length (pre ++ r1) o = chunk_length (pre ++ r2) o /\
    chunk_type (pre ++ r1) o = chunk_type (pre ++ r2) o.
Proof.
  intros Hk.
  assert (Ht : forall o, scan_reaches (pre ++ r1) 8 o -> o <= len pre ->
                 scan_reaches (pre ++ r2) 8 o).
  { intros o Ho Hle. eapply reach_transfer; [| |exact Ho|exact Hle].
    - intros a Ha Hh. apply header_app_l; lia.
    - rewrite len_app. pose proof (len_nonneg r2). lia. }
  split; [by apply Ht|].
  intros o Hlt Ho. split; [apply Ht; [done|lia]|].
  destruct (reach_next_le _ _ _ _ Ho Hk Hlt) as [_ Hn].
  pose proof (chunk_length_range (pre ++ r1) o).
  pose proof (reach_ge _ _ _ Ho).
  split; [lia|]. apply header_app_l; lia.
Qed.

(** The data after a splice at the end marker, seen by the walk. *)
Lemma spliced_walk png chunk iend :
  first_chunk png (type_is_IEND png) iend ->
  8 <= len chunk ->
  exists out,
    insert_chunk_before_iend png chunk = Returned out /\
    out = slice_to png iend ++ chunk ++ slice_from png iend /\
    len out = len png + len chunk /\
    is_chunk out iend /\
    chunk_length out iend = chunk_length chunk 0 /\
    chunk_type out iend = chunk_type chunk 0 /\
    (forall o, o < iend ->
       (is_chunk out o <-> is_chunk png o) /\
       (is_chunk png o -> chunk_type out o = chunk_type png o)).
Proof.
  intros Hfirst Hc8.
  destruct (iend_split _ _ Hfirst) as
    (pre & suf & Hpng & Hpre & H8 & Hsuf & Hpre' & Hsuf' & _).
  destruct (insert_chunk_cases png chunk) as [(off & Hoff & Hins)|[Hnone _]].
  2:{ destruct Hfirst as (Hc & HI & _). by destruct (Hnone iend Hc). }
  rewrite (first_chunk_unique _ _ _ _ Hoff Hfirst) in *.
  rewrite <- Hpre', <- Hsuf' in *.
  exists (pre ++ chunk ++ suf). split; [done|]. split; [done|].
  split; [rewrite Hpng, !len_app; lia|].
  destruct Hfirst as ((Hreach & Hh) & _).
  rewrite Hpng in Hreach. rewrite <- Hpre in *.
  destruct (walk_agree pre suf (chunk ++ suf) Hreach) as [Hk Hfwd].
  destruct (walk_agree pre (chunk ++ suf) suf Hk) as [_ Hbwd].
  destruct (header_app_r pre (chunk ++ suf) (len pre) ltac:(lia)) as [Hl Ht].
  rewrite Z.sub_diag in Hl, Ht.
  split; [split; [done|rewrite !len_app; lia]|].
  split.
  { rewrite Hl. unfold chunk_length. by rewrite !slice_app_l by lia. }
  split.
  { rewrite Ht. unfold chunk_type. by rewrite !slice_app_l by lia. }
  intros o Hlt. rewrite Hpng. split.
  - split; intros [Ho _].
    + destruct (Hbwd o Hlt Ho) as (Ho' & Hn & _).
      split; [done|]. rewrite len_app. lia.
    + destruct (Hfwd o Hlt Ho) as (Ho' & Hn & _).
      split; [done|]. rewrite !len_app. lia.
  - intros [Ho _]. destruct (Hfwd o Hlt Ho) as (_ & _ & _ & Hty). done.
Qed.

(** A chunk that was spliced in is the one found afterwards. *)
Theorem find_custom_chunk_after_insert png chunk names iend :
  first_chunk png (type_is_IEND png) iend ->
  (forall off, is_chunk png off -> off < iend -> ~ type_matches names png off) ->
  whole_chunk chunk ->
  type_matches names chunk 0 ->
  exists out,
    insert_chunk_before_iend png chunk = Returned out /\
    find_custom_chunk out names = Returned (Some chunk).
Proof.
  intros Hfirst Hbefore [Hc8 Hwhole] Hmatch.
  destruct (spliced_walk png chunk iend Hfirst Hc8) as
    (out & Hins & Hout & Hlen & Hchunk & Hl & Ht & Hold).
  exists out. split; [done|].
  assert (Hf : first_chunk out (type_matches names out) iend).
  { split; [done|]. split.
    - destruct Hmatch as (name & Hin & Hlow). exists name. by rewrite Ht.
    - intros o Ho Hlt (name & Hin & Hlow).
      destruct (Hold o Hlt) as [Hiff Hty]. apply Hiff in Ho.
      apply (Hbefore o Ho Hlt). exists name. by rewrite <- Hty. }
  destruct (find_custom_chunk_cases out names) as [(off & Hoff & ->)|[Hnone _]].
  2:{ destruct Hf as (Hc & Hm & _). by destruct (Hnone iend Hc). }
  rewrite (first_chunk_unique _ _ _ _ Hoff Hf), Hl. do 2 f_equal.
  destruct (iend_split _ _ Hfirst) as
    (pre & suf & Hpng & Hpre & H8 & Hsuf & Hpre' & Hsuf' & _).
  rewrite Hout, <- Hpre', <- Hsuf', <- Hpre.
  rewrite slice_app_r by lia. rewrite Z.sub_diag.
  replace (len pre + 12 + chunk_length chunk 0 - len pre) with (len chunk) by lia.
  apply slice_prefix_exact.
Qed.

(** After a complete chunk of another type is spliced in, the end marker is
    still the first IEND chunk, right behind the new chunk; a second
    splice lands between the two. *)
Theorem insert_chunk_twice png chunk chunk2 iend :
  first_chunk png (type_is_IEND png) iend ->
  whole_chunk chunk ->
  chunk_type chunk 0 <> IEND ->
  exists out,
    insert_chunk_before_iend png chunk = Returned out /\
    first_chunk out (type_is_IEND out) (iend + len chunk) /\
    insert_chunk_before_iend out chunk2 =
      Returned (slice_to png iend ++ chunk ++ chunk2 ++ slice_from png iend).
Proof.
  intros Hfirst [Hc8 Hwhole] Hnot.
  destruct (spliced_walk png chunk iend Hfirst Hc8) as
    (out & Hins & Hout & Hlen & Hchunk & Hl & Ht & Hold).
  destruct (iend_split _ _ Hfirst) as
    (pre & suf & Hpng & Hpre & H8 & Hsuf & Hpre' & Hsuf' & Hsuft).
  rewrite <- Hpre', <- Hsuf' in *.
  exists out. split; [done|].
  assert (Hout' : out = (pre ++ chunk) ++ suf) by (by rewrite <- app_assoc).
  assert (Hf : first_chunk out (type_is_IEND out) (iend + len chunk)).
  { split; [|split].
    - destruct Hchunk as [Hr Hh]. split.
      + replace (iend + len chunk) with (iend + 12 + chunk_length out iend) by lia.
        by constructor.
      + rewrite Hlen, Hpng, len_app. lia.
    - unfold type_is_IEND. rewrite Hout'.
      destruct (header_app_r (pre ++ chunk) suf (iend + len chunk)) as [_ Hty].
      { rewrite len_app. lia. }
      rewrite Hty, len_app, <- Hsuft. f_equal. lia.
    - intros o [Ho Hoh] Hlt HI.
      destruct (Z.lt_trichotomy o iend) as [Hlo|[->|Hhi]].
      + destruct (Hold o Hlo) as [Hiff Hty].
        assert (Hpo : is_chunk png o) by (by apply Hiff).
        destruct Hfirst as (_ & _ & Hmin). apply (Hmin o Hpo Hlo).
        unfold type_is_IEND in *. by rewrite <- Hty.
      + unfold type_is_IEND in HI. congruence.
      + destruct Hchunk as [Hr _].
        destruct (reach_next_le _ _ _ _ Hr Ho Hhi) as [_ Hn]. lia. }
  split; [done|].
  destruct (insert_chunk_cases out chunk2) as [(off & Hoff & ->)|[Hnone _]].
  2:{ destruct Hf as (Hc & HI & _). by destruct (Hnone _ Hc). }
  rewrite (first_chunk_unique _ _ _ _ Hoff Hf). f_equal.
  replace (iend + len chunk) with (len (pre ++ chunk)) by (rewrite len_app; lia).
  rewrite Hout', slice_to_app, slice_from_app by lia.
  rewrite Z.sub_diag. unfold slice_to, slice_from.
  rewrite slice_empty, slice_all by lia.
  by rewrite app_nil_r, <- !app_assoc.
Qed.

End splice.

(** ** What the chunk routines look at *)

Section inspection.
Implicit Types (data rest chunk : bytes) (names : list string).

(** Neither routine inspects the first 8 bytes: with another 8 bytes in
    front of the same chunk data, [find_custom_chunk] returns the same
    result and [insert_chunk_before_iend] splices at the same place. *)
Theorem signature_not_inspected (sig1 sig2 : bytes) rest names chunk :
  len sig1 = 8 -> len sig2 = 8 ->
  find_custom_chunk (sig1 ++ rest) names = find_custom_chunk (sig2 ++ rest) names /\
  exists r,
    insert_chunk_before_iend (sig1 ++ rest) chunk = Returned (sig1 ++ r) /\
    insert_chunk_before_iend (sig2 ++ rest) chunk = Returned (sig2 ++ r).
Proof.
  intros H1 H2.
  assert (Hlen : len (sig1 ++ rest) = len (sig2 ++ rest))
    by (rewrite !len_app; lia).
  assert (Hfuel : scan_fuel (sig1 ++ rest) = scan_fuel (sig2 ++ rest))
    by (unfold scan_fuel; by rewrite Hlen).
  assert (Hsl : forall lo hi, 8 <= lo -> 8 <= hi ->
            slice (sig1 ++ rest) lo hi = slice (sig2 ++ rest) lo hi).
  { intros lo hi Hlo Hhi. rewrite !slice_app_r by lia. by rewrite H1, H2. }
  assert (Hcl : forall off, 8 <= off ->
            chunk_length (sig1 ++ rest) off = chunk_length (sig2 ++ rest) off).
  { intros off Hoff. unfold chunk_length. by rewrite Hsl by lia. }
  assert (Hct : forall off, 8 <= off ->
            chunk_type (sig1 ++ rest) off = chunk_type (sig2 ++ rest) off).
  { intros off Hoff. unfold chunk_type. by rewrite Hsl by lia. }
  split.
  - unfold find_custom_chunk. rewrite !find_loop_first_hit by lia.
    rewrite Hfuel.
    rewrite (first_hit_congr (sig1 ++ rest) (sig2 ++ rest)
               (name_test (sig1 ++ rest) (list_to_set (map lower names)))
               (name_test (sig2 ++ rest) (list_to_set (map lower names))))
      by (try done; intros off Hoff; unfold name_test; by rewrite Hct).
    destruct (first_hit_spec (sig2 ++ rest)
                (name_test (sig2 ++ rest) (list_to_set (map lower names)))
                (scan_fuel (sig2 ++ rest)) 8 ltac:(lia) (enough_scan_fuel _))
      as [(t & -> & Hr & _)|[-> _]]; simpl; [|done].
    apply reach_ge in Hr.
    pose proof (chunk_length_range (sig1 ++ rest) t).
    rewrite Hsl, Hcl by lia. done.
  - unfold insert_chunk_before_iend. rewrite !insert_loop_first_hit by lia.
    rewrite Hfuel.
    rewrite (first_hit_congr (sig1 ++ rest) (sig2 ++ rest)
               (iend_test (sig1 ++ rest)) (iend_test (sig2 ++ rest)))
      by (try done; intros off Hoff; unfold iend_test; by rewrite Hct).
    destruct (first_hit_spec (sig2 ++ rest) (iend_test (sig2 ++ rest))
                (scan_fuel (sig2 ++ rest)) 8 ltac:(lia) (enough_scan_fuel _))
      as [(t & -> & Hr & _)|[-> _]]; simpl.
    + apply reach_ge in Hr.
      exists (slice_to rest (t - 8) ++ chunk ++ slice_from rest (t - 8)).
      rewrite !slice_to_app, !slice_from_app by lia.
      rewrite H1, H2. by rewrite <- !app_assoc.
    + exists (rest ++ chunk). by rewrite <- !app_assoc.
Qed.

(** Data too short to hold a chunk header after the signature (fewer than
    16 bytes, the empty byte string included) has no chunk to find, and a
    chunk inserted into it is appended. *)
Theorem no_chunk_in_short_data data names chunk :
  len data < 16 ->
  find_custom_chunk data names = Returned None /\
  insert_chunk_before_iend data chunk = Returned (data ++ chunk).
Proof.
  intros Hshort.
  unfold find_custom_chunk, insert_chunk_before_iend.
  destruct (scan_fuel data); simpl;
    destruct (Z.leb_spec (8 + 8) (len data)); try lia; done.
Qed.

Lemma found_chunk_at data names c :
  find_custom_chunk data names = Returned (Some c) ->
  exists off,
    8 <= off /\ off + 8 <= len data /\ type_matches names data off /\
    c = slice data off (off + 12 + chunk_length data off).
Proof.
  intros Hfind.
  destruct (find_custom_chunk_cases data names) as [(off & Hoff & Hr)|[_ Hr]];
    [|congruence].
  rewrite Hfind in Hr. injection Hr as ->.
  destruct Hoff as (Hc & Hm & _). pose proof (is_chunk_ge _ _ Hc) as H8.
  destruct Hc as [_ Hh]. eauto 6.
Qed.

Lemma found_chunk_truthy data names c :
  find_custom_chunk data names = Returned (Some c) -> truthy (Some c) = true.
Proof.
  intros Hfind. apply found_chunk_at in Hfind as (off & H8 & Hh & _ & ->).
  pose proof (chunk_length_range data off) as Hn.
  assert (Hlen : 8 <= len (slice data off (off + 12 + chunk_length data off))).
  { rewrite slice_len by lia. lia. }
  destruct (slice data off _); [unfold len in Hlen; simpl in Hlen; lia|done].
Qed.

(** A chunk that is found is never empty: it is a piece of the data that
    starts after the signature with a complete 8-byte header, whose type
    code is the one that matched. *)
Theorem found_chunk_shape data names c :
  find_custom_chunk data names = Returned (Some c) ->
  8 <= len c /\ truthy (Some c) = true /\
  type_matches names c 0 /\
  exists pre suf, data = pre ++ c ++ suf /\ 8 <= len pre.
Proof.
  intros Hfind. pose proof (found_chunk_truthy _ _ _ Hfind) as Htruthy.
  apply found_chunk_at in Hfind as (off & H8 & Hh & Hm & ->).
  pose proof (chunk_length_range data off) as Hn.
  set (e := off + 12 + chunk_length data off) in *.
  assert (Hlen : 8 <= len (slice data off e)).
  { rewrite slice_len by lia. lia. }
  split; [done|]. split; [done|]. split.
  - destruct Hm as (name & Hin & Hlow). exists name. split; [done|].
    rewrite Hlow. do 2 f_equal. unfold chunk_type.
    rewrite slice_slice by lia. done.
  - exists (slice data 0 off), (slice data e (len data)).
    split; [|rewrite slice_len by lia; lia].
    destruct (Z.le_gt_cases e (len data)).
    + by rewrite !slice_app, slice_all by lia.
    + assert (Hnil : slice data e (len data) = []).
      { unfold slice, adjust. pose proof (len_nonneg data).
        destruct (Z.ltb_spec e 0); [lia|].
        destruct (Z.ltb_spec (len data) 0); [lia|].
        rewrite !Z.min_r by lia. by rewrite Z.sub_diag. }
      rewrite Hnil, app_nil_r.
      rewrite (slice_to_end data off e) by lia.
      unfold slice_from. by rewrite slice_app, slice_all by lia.
Qed.

Lemma lower_char_idem (c : ascii) : lower_char (lower_char c) = lower_char c.
Proof. destruct c as [[] [] [] [] [] [] [] []]; reflexivity. Qed.

Lemma lower_idem (s : string) : lower (lower s) = lower s.
Proof.
  induction s as [|c s IH]; [done|]. simpl. by rewrite lower_char_idem, IH.
Qed.

(** Only the set of lower-cased names counts: two lists of names with the
    same lower-cased members, in whatever order, case and multiplicity,
    find the same chunk. *)
Theorem names_count_as_a_set data names names' :
  (forall s, In s (map lower names) <-> In s (map lower names')) ->
  find_custom_chunk data names = find_custom_chunk data names'.
Proof.
  intros Hsame. unfold find_custom_chunk.
  assert (Hset : (list_to_set (map lower names) : gset string)
                 = list_to_set (map lower names')).
  { apply set_eq. intros s. rewrite !elem_of_list_to_set, !list_elem_of_In.
    apply Hsame. }
  by rewrite Hset.
Qed.

End inspection.

(** ** More on [ensure_divisible_by_8] *)

Section rounding.

Lemma py_or_round_cases (n : Z) :
  let r := py_or (n / 8 * 8) 8 in
  (8 | r) /\ r <> 0 /\
  (n / 8 * 8 <> 0 -> r = n / 8 * 8) /\ (n / 8 * 8 = 0 -> r = 8) /\
  n / 8 * 8 <= n < n / 8 * 8 + 8.
Proof.
  cbv zeta. unfold py_or.
  pose proof (Z.div_mod n 8 ltac:(lia)) as Hdm.
  pose proof (Z.mod_pos_bound n 8 ltac:(lia)) as Hm.
  destruct (Z.eqb_spec (n / 8 * 8) 0) as [He|He].
  - repeat split; try lia. by exists 1.
  - repeat split; try lia. by exists (n / 8).
Qed.

(** Rounding twice is rounding once. *)
Theorem ensure_divisible_by_8_idempotent (size : Z * Z) :
  ensure_divisible_by_8 (ensure_divisible_by_8 size) = ensure_divisible_by_8 size.
Proof.
  destruct size as [w h]. unfold ensure_divisible_by_8.
  assert (Hfix : forall n, py_or (py_or (n / 8 * 8) 8 / 8 * 8) 8 = py_or (n / 8 * 8) 8).
  { intros n. destruct (py_or_round_cases n) as ([k Hk] & Hne & _).
    set (r := py_or (n / 8 * 8) 8) in *.
    assert (r / 8 * 8 = r) as -> by (rewrite Hk, Z.div_mul by lia; done).
    unfold py_or. destruct (Z.eqb_spec r 0); [done|done]. }
  by rewrite !Hfix.
Qed.

(** A size is left as it is exactly when both dimensions are multiples of
    8 other than 0; [convert_image] resizes in every other case. *)
Theorem ensure_divisible_by_8_fixed (w h : Z) :
  ensure_divisible_by_8 (w, h) = (w, h) <->
  ((8 | w) /\ w <> 0) /\ ((8 | h) /\ h <> 0).
Proof.
  unfold ensure_divisible_by_8.
  assert (Hone : forall n, py_or (n / 8 * 8) 8 = n <-> (8 | n) /\ n <> 0).
  { intros n. destruct (py_or_round_cases n) as (Hd & Hne & Hnz & Hz & Hb).
    split.
    - intros <-. done.
    - intros [[k ->] Hn]. rewrite Z.div_mul by lia.
      unfold py_or. destruct (Z.eqb_spec (k * 8) 0); [lia|done]. }
  split.
  - intros [= Hw Hh]. split; by apply Hone.
  - intros [Hw Hh]. f_equal; by apply Hone.
Qed.

(** For an image of at least one pixel each way, each new dimension is a
    multiple of 8 and at least 8, less than 8 away from the old one, never
    larger than an old one of 8 or more, and 8 for an old one below 8. *)
Theorem ensure_divisible_by_8_bounds (w h : Z) :
  1 <= w -> 1 <= h ->
  let '(new_w, new_h) := ensure_divisible_by_8 (w, h) in
  ((8 | new_w) /\ 8 <= new_w /\ Z.abs (new_w - w) < 8 /\
   (8 <= w -> new_w <= w) /\ (w < 8 -> new_w = 8)) /\
  ((8 | new_h) /\ 8 <= new_h /\ Z.abs (new_h - h) < 8 /\
   (8 <= h -> new_h <= h) /\ (h < 8 -> new_h = 8)).
Proof.
  intros Hw Hh. unfold ensure_divisible_by_8.
  assert (Hone : forall n, 1 <= n ->
            let r := py_or (n / 8 * 8) 8 in
            (8 | r) /\ 8 <= r /\ Z.abs (r - n) < 8 /\
            (8 <= n -> r <= n) /\ (n < 8 -> r = 8)).
  { intros n Hn. cbv zeta.
    destruct (py_or_round_cases n) as (Hd & Hne & Hnz & Hz & Hb).
    pose proof (Z.div_pos n 8 ltac:(lia) ltac:(lia)) as Hq.
    destruct (Z.eq_dec (n / 8 * 8) 0) as [He|He].
    - rewrite (Hz He). split; [done|]. lia.
    - rewrite (Hnz He). split; [by exists (n / 8)|]. lia. }
  split; by apply Hone.
Qed.

End rounding.

Lemma ensure_divisible_by_8_bounds_witness :
  1 <= 9 /\ 1 <= 5 /\
  let '(new_w, new_h) := ensure_divisible_by_8 (9, 5) in
  ((8 | new_w) /\ 8 <= new_w /\ Z.abs (new_w - 9) < 8 /\
   (8 <= 9 -> new_w <= 9) /\ (9 < 8 -> new_w = 8)) /\
  ((8 | new_h) /\ 8 <= new_h /\ Z.abs (new_h - 5) < 8 /\
   (8 <= 5 -> new_h <= 5) /\ (5 < 8 -> new_h = 8)).
Proof.
  assert (H1 : 1 <= 9) by lia. assert (H2 : 1 <= 5) by lia.
  split; [exact H1|]. split; [exact H2|].
  exact (ensure_divisible_by_8_bounds 9 5 H1 H2).
Defined.

(** ** Files and events of a run *)

Section run_effects.
Context `{Pillow}.
Implicit Types (w : world) (png : bytes) (path : string).
Local Arguments find_custom_chunk : simpl never.
Local Arguments insert_chunk_before_iend : simpl never.
Local Arguments to_indexed : simpl never.

(** The template step in full: what it does to the world and to the PNG. *)
Lemma copy_template_chunk_spec png tp w r w1 :
  copy_template_chunk png tp w = (r, w1) ->
  exists tevs,
    w1 = after w tevs /\
    ((tp = None /\ tevs = [] /\ r = Returned png) \/
     (exists path, tp = Some path /\ w_files w !! path = None /\
        tevs = [EvIsFile path] /\ r = Returned png) \/
     (exists path tbytes, tp = Some path /\ w_files w !! path = Some tbytes /\
        tevs = [EvIsFile path; EvOpenRead path] /\
        ((find_custom_chunk tbytes ["w2lv"; "walv"]%string = Returned None /\
          r = Returned png) \/
         (exists c, find_custom_chunk tbytes ["w2lv"; "walv"]%string
                      = Returned (Some c) /\
                    r = insert_chunk_before_iend png c)))).
Proof.
  unfold copy_template_chunk. destruct tp as [path|].
  2:{ unfold ret. intros [= <- <-]. exists []. split.
      - unfold after. rewrite app_nil_r. by destruct w.
      - left. done. }
  cbv beta iota delta [bind isfile read_file log lift ret]. simpl.
  destruct (w_files w !! path) as [tbytes|] eqn:Hf; simpl.
  2:{ intros [= <- <-]. exists [EvIsFile path]. split; [done|].
      right. left. by exists path. }
  repeat (rewrite Hf; simpl).
  intros Hr. exists [EvIsFile path; EvOpenRead path].
  assert (Hw : World (w_files w) ((w_trace w ++ [EvIsFile path]) ++ [EvOpenRead path])
                 (w_refusals w)
               = after w [EvIsFile path; EvOpenRead path])
    by (unfold after; by rewrite <- app_assoc).
  rewrite Hw in Hr.
  destruct (find_custom_chunk_cases tbytes ["w2lv"; "walv"]%string)
    as [(off & Hoff & Hfind)|[_ Hfind]]; rewrite Hfind in Hr.
  - rewrite (found_chunk_truthy _ _ _ Hfind) in Hr. injection Hr as <- <-.
    split; [done|]. right. right. exists path, tbytes.
    repeat split; try done. right. eauto.
  - injection Hr as <- <-.
    split; [done|]. right. right. exists path, tbytes.
    repeat split; try done. by left.
Qed.

Lemma copy_template_chunk_ends png tp w r w1 :
  copy_template_chunk png tp w = (r, w1) -> r <> NoFuel.
Proof.
  intros Hc. apply copy_template_chunk_spec in Hc as (tevs & _ & Hcases).
  destruct Hcases as [(_ & _ & ->)|[(path & _ & _ & _ & ->)|
                      (path & tbytes & _ & _ & _ & [[_ ->]|(c & _ & ->)])]];
    try done.
  by destruct (insert_never_stuck png c) as [r ->].
Qed.

Lemma copy_template_chunk_keeps_files png tp w r w1 :
  copy_template_chunk png tp w = (r, w1) -> w_files w1 = w_files w.
Proof.
  intros Hc. apply copy_template_chunk_spec in Hc as (tevs & -> & _). done.
Qed.

(** Where a run can end, by what it has done to the files: before the
    output is opened; in the write, which leaves the first bytes of the
    data; in [print], after the whole output is in place; or by returning. *)
Lemma convert_image_files input_path output_path template_path max_colours
    transparent_colour dither w o w' :
  convert_image input_path output_path template_path max_colours
    transparent_colour dither w = (o, w') ->
  (o <> Returned tt /\ w_files w' = w_files w) \/
  (exists png n e,
     write_error (w_refusals w) output_path = Some (n, e) /\
     o = Raised e /\
     w_files w' = <[output_path := take n png]> (w_files w)) \/
  (exists png e,
     print_error (w_refusals w) ("Created W:A map: " +:+ output_path) = Some e /\
     o = Raised e /\
     w_files w' = <[output_path := png]> (w_files w)) \/
  (o = Returned tt /\ lets_through w output_path /\
   exists png, w_files w' = <[output_path := png]> (w_files w)).
Proof.
  unfold convert_image.
  destruct ((max_colours <? 1) || (max_colours >? 112)).
  { unfold raise. intros [= <- <-]. by left. }
  cbv beta iota delta [bind read_file write_file print log lift ret]. simpl.
  destruct (w_files w !! input_path) as [data|]; [|intros [= <- <-]; by left].
  destruct (image_decode data) as [src| |]; try (intros [= <- <-]; by left).
  destruct (to_indexed src _ _ _) as [[q t]| |]; try (intros [= <- <-]; by left).
  destruct (copy_template_chunk _ _ _) as [r w1] eqn:Hc.
  pose proof (copy_template_chunk_refusals _ _ _ _ _ Hc) as Hr.
  apply copy_template_chunk_keeps_files in Hc. simpl in Hc, Hr.
  destruct r as [png| |]; try (intros [= <- <-]; simpl; rewrite Hc; by left).
  rewrite Hr.
  destruct (open_wb_error _ _) eqn:Ho.
  { intros [= <- <-]. simpl. rewrite Hc. by left. }
  destruct (write_error _ _) as [[n e]|] eqn:Hwr; simpl.
  { intros [= <- <-]. simpl. rewrite Hc. right. left. by exists png, n, e. }
  destruct (print_error _ _) as [e|] eqn:Hp.
  { intros [= <- <-]. simpl. rewrite Hc. right. right. left. by exists png, e. }
  intros [= <- <-]. simpl. rewrite Hc. right. right. right.
  split; [done|]. split; [done|]. eauto.
Qed.

(** A run that returns has changed one file, the output file; every other
    path holds what it held before. *)
Theorem convert_image_only_writes_output input_path output_path template_path
    max_colours transparent_colour dither w w' :
  convert_image input_path output_path template_path max_colours
    transparent_colour dither w = (Returned tt, w') ->
  (exists png, w_files w' = <[output_path := png]> (w_files w)) /\
  forall path, path <> output_path -> w_files w' !! path = w_files w !! path.
Proof.
  intros Hrun.
  apply convert_image_files in Hrun
    as [[Hne _]|[(? & ? & ? & _ & [=] & _)|[(? & ? & _ & [=] & _)
        |(_ & _ & png & Hpng)]]]; [done|].
  split; [eauto|]. intros path Hne. rewrite Hpng. by apply lookup_insert_ne.
Qed.


(** With [max_colours] in range, a missing input file raises
    [FileNotFoundError] and an input that does not decode raises the
    decoder's error, in both cases right after the attempt to read it. *)
Theorem convert_image_input_errors input_path output_path template_path
    max_colours transparent_colour dither w :
  1 <= max_colours <= 112 ->
  let run := convert_image input_path output_path template_path max_colours
               transparent_colour dither w in
  (w_files w !! input_path = None ->
   run = (Raised FileNotFoundError, after w [EvOpenRead input_path])) /\
  (forall data e,
     w_files w !! input_path = Some data -> image_decode data = Raised e ->
     run = (Raised e, after w [EvOpenRead input_path])).
Proof.
  intros Hrange. cbv zeta. unfold convert_image.
  destruct ((max_colours <? 1) || (max_colours >? 112)) eqn:E.
  { apply orb_true_elim in E as [E|E]; lia. }
  cbv beta iota delta [bind read_file write_file print log lift ret]. simpl.
  split.
  - by intros ->.
  - intros data e -> ->. done.
Qed.

(** A template path that names no file changes nothing but the trace: the
    outcome and the files are those of the run without template. *)
Theorem convert_image_template_missing input_path output_path path
    max_colours transparent_colour dither w :
  w_files w !! path = None ->
  let with_template := convert_image input_path output_path (Some path)
                         max_colours transparent_colour dither w in
  let without := convert_image input_path output_path None
                   max_colours transparent_colour dither w in
  with_template.1 = without.1 /\
  w_files with_template.2 = w_files without.2.
Proof.
  intros Hmissing. cbv zeta. unfold convert_image.
  destruct ((max_colours <? 1) || (max_colours >? 112)); [done|].
  cbv beta iota delta [bind read_file write_file print log lift ret
                       copy_template_chunk isfile]. simpl.
  destruct (w_files w !! input_path) as [data|]; [|done].
  destruct (image_decode data) as [src| |]; try done.
  destruct (to_indexed src _ _ _) as [[q t]| |]; try done.
  cbn [w_files w_trace w_refusals]. rewrite Hmissing.
  cbn [bool_decide decide_rel w_files w_trace w_refusals]. simpl.
  destruct (open_wb_error _ _); [done|].
  destruct (write_error _ _) as [[n e]|]; simpl; [done|].
  by destruct (print_error _ _).
Qed.

(** The events of a run that returns: the input is read first, the
    template (if any) is tested and read next, and the single write, to
    the output path, comes after every read. *)
Theorem convert_image_trace input_path output_path template_path
    max_colours transparent_colour dither w w' :
  convert_image input_path output_path template_path max_colours
    transparent_colour dither w = (Returned tt, w') ->
  exists png tevs,
    w_files w' !! output_path = Some png /\
    w_trace w' = w_trace w ++ [EvOpenRead input_path] ++ tevs
                 ++ [EvWrite output_path png;
                     EvPrint ("Created W:A map: " +:+ output_path)] /\
    (tevs = [] \/
     exists path, template_path = Some path /\
       (tevs = [EvIsFile path] \/ tevs = [EvIsFile path; EvOpenRead path])).
Proof.
  intros Hrun. apply convert_image_inv in Hrun
    as (_ & data & src & q & t & png & w1 & _ & _ & _ & Hc & _ & ->).
  apply copy_template_chunk_spec in Hc as (tevs & -> & Hcases).
  exists png, tevs. split; [simpl; apply lookup_insert_eq|].
  split; [simpl; by rewrite <- !app_assoc|].
  destruct Hcases as [(_ & -> & _)|[(path & -> & _ & -> & _)|
                      (path & tbytes & -> & _ & -> & _)]].
  - by left.
  - right. exists path. auto.
  - right. exists path. auto.
Qed.

(** The output file is the encoder's output with at most one piece
    inserted, the chunk found in the template: no byte of the encoded
    image is changed or lost. *)
Theorem convert_image_keeps_encoded_image input_path output_path template_path
    max_colours transparent_colour dither w w' :
  convert_image input_path output_path template_path max_colours
    transparent_colour dither w = (Returned tt, w') ->
  exists src q t pre c suf,
    writes input_path output_path max_colours transparent_colour dither
      w w' src q t (pre ++ c ++ suf) /\
    pre ++ suf = save_png q t /\
    (c = [] \/
     exists path tbytes,
       template_path = Some path /\ w_files w !! path = Some tbytes /\
       find_custom_chunk tbytes ["w2lv"; "walv"]%string = Returned (Some c)).
Proof.
  intros Hrun. apply convert_image_inv in Hrun
    as (_ & data & src & q & t & png & w1 & Hf & Hd & Hq & Hc & _ & ->).
  assert (Hwr : forall png0,
            png0 = save_png q t \/
            (exists c, insert_chunk_before_iend (save_png q t) c = Returned png0) ->
            png = png0 ->
            writes input_path output_path max_colours transparent_colour dither w
              (World (<[output_path := png]> (w_files w1))
                 (w_trace w1 ++ [EvWrite output_path png;
                     EvPrint ("Created W:A map: " +:+ output_path)])
                 (w_refusals w))
              src q t png0).
  { intros png0 Hor <-. unfold writes. split; [eauto|]. split; [done|].
    split; [simpl; apply lookup_insert_eq|done]. }
  apply copy_template_chunk_spec in Hc as (tevs & _ & Hcases).
  destruct Hcases as [(_ & _ & [= ->])|[(path & _ & _ & _ & [= ->])|
                      (path & tbytes & -> & Hfile & _ & Hfound)]].
  - exists src, q, t, (save_png q t), [], []. rewrite !app_nil_r.
    split; [apply Hwr; auto|]. auto.
  - exists src, q, t, (save_png q t), [], []. rewrite !app_nil_r.
    split; [apply Hwr; auto|]. auto.
  - destruct Hfound as [[_ [= ->]]|(c & Hfind & Hins)].
    + exists src, q, t, (save_png q t), [], []. rewrite !app_nil_r.
      split; [apply Hwr; auto|]. auto.
    + destruct (insert_chunk_cases (save_png q t) c)
        as [(off & Hoff & Hr)|[_ Hr]]; rewrite Hr in Hins;
        injection Hins as Hpng.
      * destruct Hoff as (Hchunk & _). pose proof (is_chunk_ge _ _ Hchunk).
        exists src, q, t, (slice_to (save_png q t) off), c,
               (slice_from (save_png q t) off).
        split; [apply Hwr; [right; exists c; by rewrite Hr|done]|].
        split; [apply slice_split; lia|]. right. eauto.
      * exists src, q, t, (save_png q t), c, []. rewrite !app_nil_r.
        split; [apply Hwr; [right; exists c; by rewrite Hr|done]|].
        split; [done|]. right. eauto.
Qed.

End run_effects.

(** ** [parse_colour] *)

Section cli.
Context `{Builtins}.

Lemma out_of_byte_range_false v : out_of_byte_range v = false <-> 0 <= v <= 255.
Proof.
  unfold out_of_byte_range. rewrite orb_false_iff, Z.ltb_ge, Z.gtb_ltb, Z.ltb_ge.
  lia.
Qed.

(** [parse_colour] accepts exactly the lists of three texts that [int]
    converts to values within 0..255, and returns those three values;
    anything else is an [ArgumentTypeError]. *)
Theorem parse_colour_accepts values r g b :
  parse_colour values = Parsed (r, g, b) <->
  exists sr sg sb,
    values = [sr; sg; sb] /\
    py_int sr = Some r /\ py_int sg = Some g /\ py_int sb = Some b /\
    0 <= r <= 255 /\ 0 <= g <= 255 /\ 0 <= b <= 255.
Proof.
  unfold parse_colour. split.
  - destruct (mapM py_int values) as [[|r' [|g' [|b' [|? ?]]]]|] eqn:Hm;
      try discriminate.
    destruct (existsb _ _) eqn:He; [discriminate|]. intros [= -> -> ->].
    apply mapM_Some in Hm.
    destruct values as [|sr [|sg [|sb [|? ?]]]];
      try (by repeat match goal with
                     | H : Forall2 _ _ _ |- _ => inversion H; clear H; subst
                     end).
    apply Forall2_cons in Hm as [Hr Hm].
    apply Forall2_cons in Hm as [Hg Hm].
    apply Forall2_cons in Hm as [Hb _].
    simpl in He. rewrite !orb_false_iff in He. destruct He as (H1 & H2 & H3 & _).
    apply out_of_byte_range_false in H1, H2, H3.
    exists sr, sg, sb. auto 10.
  - intros (sr & sg & sb & -> & Hr & Hg & Hb & H1 & H2 & H3).
    assert (Hm : mapM py_int [sr; sg; sb] = Some [r; g; b]).
    { apply mapM_Some. repeat constructor; done. }
    rewrite Hm. simpl.
    apply out_of_byte_range_false in H1, H2, H3. by rewrite H1, H2, H3.
Qed.

Lemma chars_length s : length (chars s) = String.length s.
Proof.
  unfold chars. rewrite length_map. induction s; simpl; auto.
Qed.

(** Handed one text instead of a list (as [argparse] does for each of the
    [nargs=3] arguments of [--transparent-colour]), [parse_colour] walks
    its characters: any text that is not exactly three characters long,
    "0" and "255 " included, is refused as not being three integers. *)
Theorem parse_colour_one_text s :
  String.length s <> 3%nat ->
  parse_colour (chars s) = ArgumentTypeError "colour must be three integers".
Proof.
  intros Hlen. unfold parse_colour.
  destruct (mapM py_int (chars s)) as [vs|] eqn:Hm; [|done].
  apply mapM_Some, Forall2_length in Hm. rewrite chars_length in Hm.
  destruct vs as [|r [|g [|b [|? ?]]]]; simpl in Hm; try done; lia.
Qed.

End cli.

(** ** The window's Convert button *)

Section window.
Context `{Pillow} `{Builtins}.
Local Arguments find_custom_chunk : simpl never.
Local Arguments insert_chunk_before_iend : simpl never.
Local Arguments to_indexed : simpl never.
Local Arguments convert_image : simpl never.

Lemma apply_transparency_ends src tc :
  library_ends -> apply_transparency src tc <> NoFuel.
Proof.
  intros [_ Hand]. unfold apply_transparency.
  destruct tc as [[[r g] b]|]; simpl; [|done].
  match goal with
  | |- context [logical_and ?a ?b] =>
      pose proof (Hand a b); destruct (logical_and a b) as [inner| |]
  end; simpl; try done.
  match goal with
  | |- context [logical_and ?a ?b] =>
      pose proof (Hand a b); destruct (logical_and a b) as [mask| |]
  end; simpl; done.
Qed.

Lemma add_transparent_entry_ends q tc : add_transparent_entry q tc <> NoFuel.
Proof.
  unfold add_transparent_entry. destruct tc as [[[r g] b]|]; [|done].
  destruct (_ <? 256); [|done].
  unfold putpalette. by destruct (forallb _ _).
Qed.

Lemma to_indexed_ends src max_colours tc dither :
  library_ends -> to_indexed src max_colours tc dither <> NoFuel.
Proof.
  intros Hlib. unfold to_indexed. cbv zeta.
  match goal with
  | |- context [apply_transparency ?s tc] =>
      pose proof (apply_transparency_ends s tc Hlib);
      destruct (apply_transparency s tc) as [src2| |]
  end; simpl; try done.
  apply add_transparent_entry_ends.
Qed.

(** [convert_image] always ends: it returns or raises, whatever the bytes
    of the input and of the template, given that the library calls do. *)
Theorem convert_image_ends input_path output_path template_path max_colours
    transparent_colour dither w :
  library_ends ->
  (convert_image input_path output_path template_path max_colours
     transparent_colour dither w).1 <> NoFuel.
Proof.
  intros Hlib. pose proof Hlib as [Hdec _]. unfold convert_image.
  destruct ((max_colours <? 1) || (max_colours >? 112)); [done|].
  cbv beta iota delta [bind read_file write_file print log lift ret]. simpl.
  destruct (w_files w !! input_path) as [data|]; [|done].
  pose proof (Hdec data).
  destruct (image_decode data) as [src| |]; try done.
  pose proof (to_indexed_ends src max_colours transparent_colour dither Hlib).
  destruct (to_indexed src _ _ _) as [[q t]| |]; try done.
  destruct (copy_template_chunk _ _ _) as [r w1] eqn:Hc.
  apply copy_template_chunk_ends in Hc. destruct r; try done.
  destruct (open_wb_error _ _); [done|].
  destruct (write_error _ _) as [[n e]|]; simpl; [done|].
  by destruct (print_error _ _).
Qed.

(** The same, for a run at hand. *)
Lemma conversion_not_stuck input_path output_path template_path max_colours
    transparent_colour dither w o w' :
  library_ends ->
  convert_image input_path output_path template_path max_colours
    transparent_colour dither w = (o, w') ->
  o <> NoFuel.
Proof.
  intros Hlib. pose proof Hlib as [Hdec _]. unfold convert_image.
  destruct ((max_colours <? 1) || (max_colours >? 112));
    [by intros [= <- <-]|].
  cbv beta iota delta [bind read_file write_file print log lift ret]. simpl.
  destruct (w_files w !! input_path) as [data|]; [|by intros [= <- <-]].
  pose proof (Hdec data).
  destruct (image_decode data) as [src| |]; try done; try by intros [= <- <-].
  pose proof (to_indexed_ends src max_colours transparent_colour dither Hlib).
  destruct (to_indexed src _ _ _) as [[q t]| |]; try done;
    try by intros [= <- <-].
  destruct (copy_template_chunk _ _ _) as [r w1] eqn:Hc.
  apply copy_template_chunk_ends in Hc.
  destruct r; try done; try by intros [= <- <-].
  destruct (open_wb_error _ _); [by intros [= <- <-]|].
  destruct (write_error _ _) as [[n e]|]; simpl; [by intros [= <- <-]|].
  destruct (print_error _ _); by intros [= <- <-].
Qed.

Lemma parse_colour_gui_cases d :
  let no_t := gui_no_transparency (d_gui d) in
  (_parse_colour d = (None, d) /\ no_t = true) \/
  (exists tc, _parse_colour d = (Some tc, d) /\ valid_colour_choice no_t (Some tc)) \/
  (exists msg, _parse_colour d = (None, showerror "Invalid colour" msg d) /\
               no_t = false).
Proof.
  cbv zeta. unfold _parse_colour.
  destruct (gui_no_transparency (d_gui d)); [by left|].
  destruct (py_int (gui_transparent_r _)) as [r|]; [|right; right; eauto].
  destruct (py_int (gui_transparent_g _)) as [g|]; [|right; right; eauto].
  destruct (py_int (gui_transparent_b _)) as [b|]; [|right; right; eauto].
  destruct (existsb _ _) eqn:He; [right; right; eauto|].
  right. left. exists (r, g, b). split; [done|].
  simpl in He. rewrite !orb_false_iff in He. destruct He as (H1 & H2 & H3 & _).
  apply out_of_byte_range_false in H1, H2, H3. done.
Qed.

(** Every way through [run_conversion]. *)
Lemma run_conversion_cases d o d' :
  run_conversion d = (o, d') ->
  (o = Returned tt /\ d_world d' = d_world d /\
   exists title msg, d_dialogs d' = d_dialogs d ++ [ShowError title msg]) \/
  (exists output_path template_path max_cols tc oc,
     strip (gui_input_path (d_gui d)) <> EmptyString /\
     template_path <> Some EmptyString /\
     1 <= max_cols <= 112 /\
     valid_colour_choice (gui_no_transparency (d_gui d)) tc /\
     convert_image (strip (gui_input_path (d_gui d))) output_path template_path
       max_cols tc (gui_dither (d_gui d)) (d_world d) = (oc, d_world d') /\
     ((oc = Returned tt /\ o = Returned tt /\
       d_dialogs d' = d_dialogs d
         ++ [ShowInfo "Success" ("Created map:" +:+ newline +:+ output_path)]) \/
      (exists exc, oc = Raised exc /\ o = Returned tt /\
         d_dialogs d' = d_dialogs d
           ++ [ShowError "Conversion failed"
                 ("Could not create map:" +:+ newline +:+ exn_text exc)]) \/
      (oc = NoFuel /\ o = NoFuel /\ d_dialogs d' = d_dialogs d))).
Proof.
  unfold run_conversion. cbv zeta.
  destruct (is_empty (strip (gui_input_path (d_gui d)))) eqn:Hin.
  { intros [= <- <-]. left. simpl. eauto 6. }
  assert (Hin' : strip (gui_input_path (d_gui d)) <> EmptyString).
  { intros Heq. by rewrite Heq in Hin. }
  set (template_path := if is_empty (strip (gui_template_path (d_gui d)))
                        then None else Some (strip (gui_template_path (d_gui d)))).
  assert (Htp : template_path <> Some EmptyString).
  { unfold template_path.
    destruct (strip (gui_template_path (d_gui d))); simpl; done. }
  assert (Hgo : forall output_path d0,
    d_world d0 = d_world d -> d_dialogs d0 = d_dialogs d ->
    gui_no_transparency (d_gui d0) = gui_no_transparency (d_gui d) ->
    match
      match py_int (gui_max_colours (d_gui d)) with
      | Some m => if (m <? 1) || (m >? 112) then None else Some m
      | None => None
      end
    with
    | Some max_cols =>
        let '(transparent_colour, d1) := _parse_colour d0 in
        if bool_decide (transparent_colour = None)
           && negb (gui_no_transparency (d_gui d))
        then (Returned tt, d1)
        else
          match convert_image (strip (gui_input_path (d_gui d))) output_path
                  template_path max_cols transparent_colour
                  (gui_dither (d_gui d)) (d_world d1) with
          | (Returned _, w') =>
              (Returned tt,
               showinfo "Success" ("Created map:" +:+ newline +:+ output_path)
                 (set_world w' d1))
          | (Raised exc, w') =>
              (Returned tt,
               showerror "Conversion failed"
                 ("Could not create map:" +:+ newline +:+ exn_text exc)
                 (set_world w' d1))
          | (NoFuel, w') => (NoFuel, set_world w' d1)
          end
    | None =>
        (Returned tt,
         showerror "Invalid max colours"
           "Max colours must be an integer between 1 and 112." d0)
    end = (o, d') ->
    (o = Returned tt /\ d_world d' = d_world d /\
     exists title msg, d_dialogs d' = d_dialogs d ++ [ShowError title msg]) \/
    (exists output_path template_path max_cols tc oc,
       strip (gui_input_path (d_gui d)) <> EmptyString /\
       template_path <> Some EmptyString /\
       1 <= max_cols <= 112 /\
       valid_colour_choice (gui_no_transparency (d_gui d)) tc /\
       convert_image (strip (gui_input_path (d_gui d))) output_path template_path
         max_cols tc (gui_dither (d_gui d)) (d_world d) = (oc, d_world d') /\
       ((oc = Returned tt /\ o = Returned tt /\
         d_dialogs d' = d_dialogs d
           ++ [ShowInfo "Success" ("Created map:" +:+ newline +:+ output_path)]) \/
        (exists exc, oc = Raised exc /\ o = Returned tt /\
           d_dialogs d' = d_dialogs d
             ++ [ShowError "Conversion failed"
                   ("Could not create map:" +:+ newline +:+ exn_text exc)]) \/
        (oc = NoFuel /\ o = NoFuel /\ d_dialogs d' = d_dialogs d)))).
  { intros output_path d0 Hw Hd Hno.
    destruct (py_int (gui_max_colours (d_gui d))) as [m|].
    2:{ intros [= <- <-]. left. simpl. rewrite Hw, Hd. eauto 6. }
    destruct ((m <? 1) || (m >? 112)) eqn:Hm.
    { intros [= <- <-]. left. simpl. rewrite Hw, Hd. eauto 6. }
    apply orb_false_elim in Hm as [Hm1 Hm2].
    assert (Hrange : 1 <= m <= 112) by lia.
    destruct (parse_colour_gui_cases d0) as
      [[-> Hn]|[(tc & -> & Hv)|(msg & -> & Hn)]]; cbv zeta in *;
      rewrite Hno in *.
    - rewrite Hn. simpl.
      destruct (convert_image _ _ _ _ _ _ _) as [oc w'] eqn:Hc.
      rewrite Hw in Hc.
      destruct oc as [[]|exc|]; intros [= <- <-]; right;
        exists output_path, template_path, m, None; eexists;
        (split; [done|]); (split; [done|]); (split; [done|]);
        (split; [done|]); (split; [exact Hc|]); simpl; rewrite Hd.
      + left. done.
      + right. left. eauto.
      + right. right. done.
    - simpl.
      destruct (convert_image _ _ _ _ _ _ _) as [oc w'] eqn:Hc.
      rewrite Hw in Hc.
      destruct oc as [[]|exc|]; intros [= <- <-]; right;
        exists output_path, template_path, m, (Some tc); eexists;
        (split; [done|]); (split; [done|]); (split; [done|]);
        (split; [done|]); (split; [exact Hc|]); simpl; rewrite Hd.
      + left. done.
      + right. left. eauto.
      + right. right. done.
    - rewrite Hn. simpl. intros [= <- <-]. left. simpl. rewrite Hw, Hd. eauto 6. }
  destruct (is_empty (strip (gui_output_path (d_gui d)))).
  - destruct (gui_savedlevels_dir (d_gui d)) as [dir|].
    + apply Hgo; done.
    + intros [= <- <-]. left. simpl. eauto 6.
  - apply Hgo; done.
Qed.

(** Pressing Convert never raises and always ends in exactly one message
    box: every error of the conversion is caught and shown. *)
Theorem run_conversion_one_dialog d :
  library_ends ->
  exists d' dlg,
    run_conversion d = (Returned tt, d') /\
    d_dialogs d' = d_dialogs d ++ [dlg].
Proof.
  intros Hlib. destruct (run_conversion d) as [o d'] eqn:Hrun.
  apply run_conversion_cases in Hrun
    as [(-> & _ & title & msg & Hd)|
        (out & tp & m & tc & oc & _ & _ & _ & _ & Hc & Hcases)].
  - eauto.
  - destruct Hcases as [(_ & -> & Hd)|[(exc & _ & -> & Hd)|(-> & _ & _)]].
    + eauto.
    + eauto.
    + by apply (conversion_not_stuck _ _ _ _ _ _ _ _ _ Hlib) in Hc.
Qed.

(** Whatever is typed into the window, the converter is only ever run
    with a non-empty input path, no empty template path, [max_colours]
    within 1..112 and a transparent colour that is absent (transparency
    disabled) or within 0..255; when it is not run, the files and the
    trace stay as they were. *)
Theorem run_conversion_validates d o d' :
  run_conversion d = (o, d') ->
  d_world d' = d_world d \/
  exists output_path template_path max_cols tc,
    strip (gui_input_path (d_gui d)) <> EmptyString /\
    template_path <> Some EmptyString /\
    1 <= max_cols <= 112 /\
    valid_colour_choice (gui_no_transparency (d_gui d)) tc /\
    (convert_image (strip (gui_input_path (d_gui d))) output_path template_path
       max_cols tc (gui_dither (d_gui d)) (d_world d)).2 = d_world d'.
Proof.
  intros Hrun. apply run_conversion_cases in Hrun
    as [(_ & Hw & _)|(out & tp & m & tc & oc & H1 & H2 & H3 & H4 & Hc & _)].
  - by left.
  - right. exists out, tp, m, tc. rewrite Hc. done.
Qed.

(** When the files differ after Convert was pressed, one file was written,
    the output file the converter was run with.  The box shown is the
    Success box naming that file, on a system that refused nothing; or the
    box "Conversion failed", when the write was refused part-way (the file
    holds a beginning of the output) or when [print] was refused after the
    write (the file holds the whole output). *)
Theorem run_conversion_changed_files d o d' :
  run_conversion d = (o, d') ->
  w_files (d_world d') <> w_files (d_world d) ->
  exists output_path png,
    w_files (d_world d') = <[output_path := png]> (w_files (d_world d)) /\
    ((lets_through (d_world d) output_path /\
      d_dialogs d' = d_dialogs d
        ++ [ShowInfo "Success" ("Created map:" +:+ newline +:+ output_path)]) \/
     (exists exc,
        ((exists n, write_error (w_refusals (d_world d)) output_path
                    = Some (n, exc)) \/
         print_error (w_refusals (d_world d))
           ("Created W:A map: " +:+ output_path) = Some exc) /\
        d_dialogs d' = d_dialogs d
          ++ [ShowError "Conversion failed"
                ("Could not create map:" +:+ newline +:+ exn_text exc)])).
Proof.
  intros Hrun Hchanged. apply run_conversion_cases in Hrun
    as [(_ & Hw & _)|(out & tp & m & tc & oc & _ & _ & _ & _ & Hc & Hcases)].
  { by rewrite Hw in Hchanged. }
  apply convert_image_files in Hc
    as [[_ Hf]|[(png & n & e & Hwr & -> & Hf)|[(png & e & Hp & -> & Hf)
        |(-> & Hlet & png & Hf)]]]; [done| | |].
  - exists out, (take n png). split; [done|]. right.
    destruct Hcases as [([=] & _)|[(exc & [= <-] & _ & Hd)|([=] & _)]].
    exists e. split; [left; eauto|done].
  - exists out, png. split; [done|]. right.
    destruct Hcases as [([=] & _)|[(exc & [= <-] & _ & Hd)|([=] & _)]].
    exists e. split; [by right|done].
  - exists out, png. split; [done|]. left.
    destruct Hcases as [(_ & _ & Hd)|[(exc & [=] & _)|([=] & _)]]. done.
Qed.

(** With transparency disabled the three colour entries are not looked
    at: whatever they hold, the outcome, the files and the boxes are the
    same. *)
Theorem run_conversion_ignores_colour_when_disabled d r g b :
  gui_no_transparency (d_gui d) = true ->
  (run_conversion (set_colour_fields r g b d)).1 = (run_conversion d).1 /\
  d_world (run_conversion (set_colour_fields r g b d)).2
    = d_world (run_conversion d).2 /\
  d_dialogs (run_conversion (set_colour_fields r g b d)).2
    = d_dialogs (run_conversion d).2.
Proof.
  intros Hno. unfold run_conversion, _parse_colour. cbv zeta. simpl.
  rewrite Hno. simpl.
  destruct (is_empty (strip (gui_input_path (d_gui d)))); [done|].
  destruct (is_empty (strip (gui_output_path (d_gui d)))).
  - destruct (gui_savedlevels_dir (d_gui d)) as [dir|]; [|done].
    destruct (py_int (gui_max_colours (d_gui d))) as [m|]; [|done].
    destruct ((m <? 1) || (m >? 112)); [done|]. simpl. rewrite ?Hno. simpl.
    destruct (convert_image _ _ _ _ _ _ _) as [[[]|exc|] w']; done.
  - destruct (py_int (gui_max_colours (d_gui d))) as [m|]; [|done].
    destruct ((m <? 1) || (m >? 112)); [done|]. simpl. rewrite ?Hno. simpl.
    destruct (convert_image _ _ _ _ _ _ _) as [[[]|exc|] w']; done.
Qed.

End window.

(** ** Looking for the game's folder *)

Section discovery_facts.
Context {P : Type} `{Machine P}.

Lemma deduplicate_spec (l : list P) (seen : gset P) (u : list P) :
  (forall x, x ∈ seen <-> x ∈ u) -> NoDup u ->
  exists k,
    deduplicate l seen u = u ++ k /\
    NoDup (u ++ k) /\ sublist k l /\
    (forall x, x ∈ k <-> x ∈ l /\ x ∉ u) /\
    (u = [] -> head k = head l).
Proof.
  revert seen u. induction l as [|x l IH]; intros seen u Hseen Hnd; simpl.
  - exists []. rewrite app_nil_r.
    split; [done|]. split; [done|]. split; [done|]. split; [|done].
    intros y. split; [intros Hy|intros [Hy _]]; by apply elem_of_nil in Hy.
  - destruct (bool_decide_reflect (x ∈ seen)) as [Hin|Hnin].
    + destruct (IH seen u Hseen Hnd) as (k & -> & Hk & Hsub & Hmem & _).
      exists k. split; [done|]. split; [done|].
      split; [by apply sublist_cons|]. split.
      * intros y. rewrite Hmem, elem_of_cons. split; [intros [Hy Hn]; auto|].
        intros [[->|Hy] Hnu]; [|done]. apply Hseen in Hin. done.
      * intros Hu. apply Hseen in Hin. rewrite Hu in Hin.
        by apply elem_of_nil in Hin.
    + assert (Hxu : x ∉ u) by (by rewrite <- Hseen).
      destruct (IH ({[x]} ∪ seen) (u ++ [x])) as (k & -> & Hk & Hsub & Hmem & _).
      * intros y. rewrite elem_of_union, elem_of_singleton, elem_of_app,
          list_elem_of_singleton, Hseen. tauto.
      * apply NoDup_app. split; [done|]. split; [|apply NoDup_singleton].
        intros y Hy Hy'. apply list_elem_of_singleton in Hy'. by subst.
      * exists (x :: k). rewrite <- app_assoc. simpl in *.
        rewrite <- app_assoc in Hk. simpl in Hk.
        split; [done|]. split; [done|].
        split; [by apply sublist_skip|]. split; [|done].
        intros y. rewrite !elem_of_cons, Hmem, elem_of_app, list_elem_of_singleton.
        split.
        -- intros [->|[Hy Hn]]; [auto|]. split; [auto|]. intros Hu. apply Hn. auto.
        -- intros [[->|Hy] Hn]; [auto|].
           destruct (decide (y = x)) as [->|Hne]; [auto|]. right.
           split; [done|]. intros [Hu|Hu]; done.
Qed.

Lemma collected_are_dirs (p : P) : p ∈ collect_libraries -> is_dir p = true.
Proof.
  unfold collect_libraries. rewrite list_elem_of_In, in_flat_map.
  intros (steam_root & _ & Hin).
  destruct (is_dir (child steam_root "steamapps")) eqn:Hd; [|done].
  destruct Hin as [<-|Hin]; [done|].
  destruct (is_file _); [|done].
  apply in_flat_map in Hin as (lib & _ & Hin).
  destruct (is_dir (child lib "steamapps")) eqn:Hl; [|done].
  by destruct Hin as [<-|[]].
Qed.

Lemma deduplicate_first_meetings (l : list P) (seen : gset P) (u : list P) :
  (forall x, x ∈ seen <-> x ∈ u) ->
  deduplicate l seen u = u ++ filter (fun x => x ∉ u) (first_meetings l).
Proof.
  revert seen u. induction l as [|x l IH]; intros seen u Hseen; simpl.
  - by rewrite filter_nil, app_nil_r.
  - destruct (bool_decide_reflect (x ∈ seen)) as [Hin|Hnin].
    + rewrite (IH seen u Hseen). f_equal.
      apply Hseen in Hin.
      rewrite filter_cons_False by (intros Hn; by apply Hn).
      rewrite list_filter_filter. apply list_filter_iff.
      intros y. split; [|tauto]. intros Hy. split; [done|].
      intros ->. done.
    + assert (Hxu : x ∉ u) by (by rewrite <- Hseen).
      rewrite (IH ({[x]} ∪ seen) (u ++ [x])).
      2:{ intros y. rewrite elem_of_union, elem_of_singleton, elem_of_app,
            list_elem_of_singleton, Hseen. tauto. }
      rewrite <- app_assoc. simpl. f_equal.
      rewrite filter_cons_True by done. f_equal.
      rewrite list_filter_filter. apply list_filter_iff.
      intros y. rewrite elem_of_app, list_elem_of_singleton. tauto.
Qed.

Lemma deduplicate_in_order (l done_ : list P) (seen : gset P) (u : list P) :
  (forall x, x ∈ seen <-> x ∈ u) ->
  (forall x, x ∈ u <-> x ∈ done_) ->
  in_order_of_first_meeting done_ u ->
  in_order_of_first_meeting (done_ ++ l) (deduplicate l seen u).
Proof.
  revert done_ seen u. induction l as [|x l IH]; intros done_ seen u Hseen Hdone Hord.
  - simpl. by rewrite app_nil_r.
  - simpl. replace (done_ ++ x :: l) with ((done_ ++ [x]) ++ l)
      by (by rewrite <- app_assoc).
    destruct (bool_decide_reflect (x ∈ seen)) as [Hin|Hnin].
    + apply IH; [done| |].
      * intros y. rewrite elem_of_app, list_elem_of_singleton, <- Hdone.
        split; [auto|]. intros [Hy| ->]; [done|]. by apply Hseen.
      * intros before y behind Hu.
        destruct (Hord before y behind Hu) as (met & later & -> & Hny & Hmet).
        exists met, (later ++ [x]). rewrite <- app_assoc. done.
    + assert (Hxu : x ∉ u) by (by rewrite <- Hseen).
      apply IH.
      * intros y. rewrite elem_of_union, elem_of_singleton, elem_of_app,
          list_elem_of_singleton, Hseen. tauto.
      * intros y. rewrite !elem_of_app, Hdone. tauto.
      * intros before y behind Hu.
        apply app_eq_app in Hu as [k [[-> Hk]|[-> Hk]]].
        -- destruct k as [|z k]; simpl in Hk.
           ++ injection Hk as -> ->. exists done_, []. rewrite app_nil_r in *.
              split; [done|]. split; [by rewrite <- Hdone|]. apply Hdone.
           ++ injection Hk as -> ->.
              destruct (Hord before z k eq_refl) as (met & later & -> & Hny & Hmet).
              exists met, (later ++ [x]). rewrite <- app_assoc. done.
        -- destruct k as [|z k]; simpl in Hk.
           ++ injection Hk as <- <-. exists done_, []. rewrite app_nil_r in *.
              split; [done|]. split; [by rewrite <- Hdone|]. apply Hdone.
           ++ injection Hk as _ Hk. by destruct k.
Qed.

(** [_steam_libraries] returns every [steamapps] folder that was met,
    once and in the order of first meeting: no path twice; the paths
    returned are the paths met; what stands before a path in the result is
    what was met before that path was first met (so the first one met
    comes first, and the result is the list met with every later
    repetition struck out); and every one of them is a directory. *)
Theorem steam_libraries_unique :
  NoDup _steam_libraries /\
  (forall p, p ∈ _steam_libraries <-> p ∈ collect_libraries) /\
  sublist _steam_libraries collect_libraries /\
  head _steam_libraries = head collect_libraries /\
  (forall p, p ∈ _steam_libraries -> is_dir p = true) /\
  in_order_of_first_meeting collect_libraries _steam_libraries /\
  _steam_libraries = first_meetings collect_libraries.
Proof.
  assert (Hempty : forall x : P, x ∈ (∅ : gset P) <-> x ∈ @nil P).
  { intros x. split; [set_solver|]. intros Hx. by apply elem_of_nil in Hx. }
  assert (Hord : in_order_of_first_meeting collect_libraries _steam_libraries).
  { apply (deduplicate_in_order collect_libraries [] ∅ []); [done|done|].
    intros before x behind Hu. by destruct before. }
  assert (Heq : _steam_libraries = first_meetings collect_libraries).
  { unfold _steam_libraries. rewrite (deduplicate_first_meetings _ _ _ Hempty).
    simpl. induction (first_meetings collect_libraries) as [|x l IH]; [done|].
    rewrite filter_cons_True by apply not_elem_of_nil. by f_equal. }
  unfold _steam_libraries in *.
  destruct (deduplicate_spec collect_libraries ∅ [])
    as (k & Hk & Hnd & Hsub & Hmem & Hhead); [done|constructor|].
  rewrite Hk in *.
  simpl in *.
  assert (Hiff : forall p, p ∈ k <-> p ∈ collect_libraries).
  { intros p. rewrite Hmem. split; [tauto|]. intros Hp. split; [done|].
    intros Hn. by apply elem_of_nil in Hn. }
  split; [done|]. split; [done|]. split; [done|]. split; [by apply Hhead|].
  split; [|done].
  intros p Hp. apply collected_are_dirs. by apply Hiff.
Qed.

Lemma first_steam_Some libs saved :
  first_steam_savedlevels libs = Some saved ->
  exists lib, lib ∈ libs /\
    is_dir (child (child lib "common") wa_folder) = true /\
    saved = child (child (child (child lib "common") wa_folder) "User") "SavedLevels" /\
    is_dir saved = true.
Proof.
  induction libs as [|lib libs IH]; simpl; [done|].
  destruct (is_dir (child (child lib "common") wa_folder)) eqn:Hc; simpl.
  - destruct (is_dir (child (child _ "User") "SavedLevels")) eqn:Hs.
    + intros [= <-]. exists lib. split; [left|]. done.
    + intros Hr. destruct (IH Hr) as (l & Hl & Hrest). exists l.
      split; [by right|done].
  - intros Hr. destruct (IH Hr) as (l & Hl & Hrest). exists l.
    split; [by right|done].
Qed.

Lemma first_steam_None libs :
  first_steam_savedlevels libs = None ->
  forall lib, lib ∈ libs ->
    is_dir (child (child lib "common") wa_folder)
    && is_dir (child (child (child (child lib "common") wa_folder) "User")
                 "SavedLevels") = false.
Proof.
  induction libs as [|l libs IH]; simpl; intros Hr lib Hin.
  - by apply elem_of_nil in Hin.
  - destruct (_ && _) eqn:Hq; [done|].
    apply elem_of_cons in Hin as [->|Hin]; [done|by apply IH].
Qed.

Lemma first_root_Some roots saved :
  first_root_savedlevels roots = Some saved ->
  exists root, root ∈ roots /\
    saved = child (child root "User") "SavedLevels" /\ is_dir saved = true.
Proof.
  induction roots as [|root roots IH]; simpl; [done|].
  destruct (is_dir (child (child root "User") "SavedLevels")) eqn:Hs.
  - intros [= <-]. exists root. split; [left|]. done.
  - intros Hr. destruct (IH Hr) as (r & Hin & Hrest). exists r.
    split; [by right|done].
Qed.

Lemma first_root_None roots :
  first_root_savedlevels roots = None ->
  forall root, root ∈ roots ->
    is_dir (child (child root "User") "SavedLevels") = false.
Proof.
  induction roots as [|r roots IH]; simpl; intros Hr root Hin.
  - by apply elem_of_nil in Hin.
  - destruct (is_dir (child (child r "User") "SavedLevels")) eqn:Hs; [done|].
    apply elem_of_cons in Hin as [->|Hin]; [done|by apply IH].
Qed.

(** What [find_wa_savedlevels] returns is an existing directory
    [root/User/SavedLevels], with [root] either the game folder (itself a
    directory) of a Steam library or one of the install roots tried
    outside Steam. *)
Theorem find_wa_savedlevels_sound saved :
  find_wa_savedlevels = Some saved ->
  is_dir saved = true /\
  exists root,
    saved = child (child root "User") "SavedLevels" /\
    ((exists lib, lib ∈ _steam_libraries /\
        root = child (child lib "common") wa_folder /\ is_dir root = true) \/
     root ∈ potential_roots).
Proof.
  unfold find_wa_savedlevels.
  destruct (first_steam_savedlevels _steam_libraries) as [s|] eqn:Hs.
  - intros [= <-]. apply first_steam_Some in Hs as (lib & Hin & Hc & -> & Hd).
    split; [done|]. eexists. split; [done|]. left. eauto.
  - intros Hr. apply first_root_Some in Hr as (root & Hin & -> & Hd).
    split; [done|]. eauto.
Qed.

(** When [find_wa_savedlevels] returns nothing, nothing was there: no
    Steam library holds a game folder with a [User/SavedLevels] directory,
    and no install root has one; off Windows and WSL only the Steam
    libraries are looked at. *)
Theorem find_wa_savedlevels_none :
  find_wa_savedlevels = None ->
  (forall lib, lib ∈ _steam_libraries ->
     is_dir (child (child lib "common") wa_folder)
     && is_dir (child (child (child (child lib "common") wa_folder) "User")
                  "SavedLevels") = false) /\
  (forall root, root ∈ potential_roots ->
     is_dir (child (child root "User") "SavedLevels") = false) /\
  (os_name_nt = false -> is_wsl = false -> potential_roots = []).
Proof.
  unfold find_wa_savedlevels.
  destruct (first_steam_savedlevels _steam_libraries) as [s|] eqn:Hs; [done|].
  intros Hr. split; [by apply first_steam_None|].
  split; [by apply first_root_None|].
  intros Hnt Hwsl. unfold potential_roots. by rewrite Hnt, Hwsl.
Qed.

End discovery_facts.

(** ** The further theorems at concrete inputs *)

Lemma toy_library_ends : @library_ends Toy.lib.
Proof.
  split.
  - intros data. simpl. unfold Toy.decode.
    destruct data as [|w [|h rest]]; try done. by destruct (_ =? _).
  - by intros a b.
Qed.

Lemma no_match_in_png_solid :
  forall off, is_chunk Toy.png_solid off ->
    ~ type_matches ["w2lv"; "walv"]%string Toy.png_solid off.
Proof. apply no_match_by_scan. vm_compute. reflexivity. Qed.

Lemma w2lv_chunk_whole : whole_chunk Toy.w2lv_chunk.
Proof. split; vm_compute; [discriminate|reflexivity]. Qed.

Lemma w2lv_chunk_matches :
  type_matches ["w2lv"; "walv"]%string Toy.w2lv_chunk 0.
Proof.
  exists "w2lv"%string. split; [left|vm_compute; reflexivity].
Qed.

Lemma find_custom_chunk_after_insert_witness :
  first_chunk Toy.png_solid (type_is_IEND Toy.png_solid) 124 /\
  whole_chunk Toy.w2lv_chunk /\
  type_matches ["w2lv"; "walv"]%string Toy.w2lv_chunk 0 /\
  exists out,
    insert_chunk_before_iend Toy.png_solid Toy.w2lv_chunk = Returned out /\
    find_custom_chunk out ["w2lv"; "walv"]%string = Returned (Some Toy.w2lv_chunk).
Proof.
  assert (Hiend : first_chunk Toy.png_solid (type_is_IEND Toy.png_solid) 124)
    by (apply first_iend_by_scan; vm_compute; reflexivity).
  split; [exact Hiend|]. split; [exact w2lv_chunk_whole|].
  split; [exact w2lv_chunk_matches|].
  exact (find_custom_chunk_after_insert Toy.png_solid Toy.w2lv_chunk
           ["w2lv"; "walv"]%string 124 Hiend
           (fun off Hc _ => no_match_in_png_solid off Hc)
           w2lv_chunk_whole w2lv_chunk_matches).
Defined.

Lemma insert_chunk_twice_witness :
  first_chunk Toy.png_solid (type_is_IEND Toy.png_solid) 124 /\
  whole_chunk Toy.w2lv_chunk /\
  chunk_type Toy.w2lv_chunk 0 <> IEND /\
  exists out,
    insert_chunk_before_iend Toy.png_solid Toy.w2lv_chunk = Returned out /\
    first_chunk out (type_is_IEND out) (124 + len Toy.w2lv_chunk) /\
    insert_chunk_before_iend out Toy.w2lv_chunk =
      Returned (slice_to Toy.png_solid 124 ++ Toy.w2lv_chunk ++ Toy.w2lv_chunk
                ++ slice_from Toy.png_solid 124).
Proof.
  assert (Hiend : first_chunk Toy.png_solid (type_is_IEND Toy.png_solid) 124)
    by (apply first_iend_by_scan; vm_compute; reflexivity).
  assert (Hne : chunk_type Toy.w2lv_chunk 0 <> IEND) by (vm_compute; discriminate).
  split; [exact Hiend|]. split; [exact w2lv_chunk_whole|]. split; [exact Hne|].
  exact (insert_chunk_twice Toy.png_solid Toy.w2lv_chunk Toy.w2lv_chunk 124
           Hiend w2lv_chunk_whole Hne).
Defined.

Lemma signature_not_inspected_witness :
  len (take 8 Toy.template_file) = 8 /\ len (replicate 8 x00%byte) = 8 /\
  find_custom_chunk (take 8 Toy.template_file ++ drop 8 Toy.template_file)
    ["w2lv"; "walv"]%string
  = find_custom_chunk (replicate 8 x00%byte ++ drop 8 Toy.template_file)
      ["w2lv"; "walv"]%string.
Proof.
  assert (H1 : len (take 8 Toy.template_file) = 8) by reflexivity.
  assert (H2 : len (replicate 8 x00%byte) = 8) by reflexivity.
  split; [exact H1|]. split; [exact H2|].
  exact (proj1 (signature_not_inspected (take 8 Toy.template_file)
                  (replicate 8 x00%byte) (drop 8 Toy.template_file)
                  ["w2lv"; "walv"]%string [] H1 H2)).
Defined.

Lemma no_chunk_in_short_data_witness :
  len [] < 16 /\
  find_custom_chunk [] ["w2lv"; "walv"]%string = Returned None /\
  insert_chunk_before_iend [] Toy.w2lv_chunk = Returned ([] ++ Toy.w2lv_chunk).
Proof.
  assert (H : len [] < 16) by reflexivity.
  split; [exact H|].
  exact (no_chunk_in_short_data [] ["w2lv"; "walv"]%string Toy.w2lv_chunk H).
Defined.

Lemma found_chunk_shape_witness :
  find_custom_chunk Toy.template_file ["w2lv"; "walv"]%string
    = Returned (Some Toy.w2lv_chunk) /\
  8 <= len Toy.w2lv_chunk /\ truthy (Some Toy.w2lv_chunk) = true /\
  type_matches ["w2lv"; "walv"]%string Toy.w2lv_chunk 0 /\
  exists pre suf, Toy.template_file = pre ++ Toy.w2lv_chunk ++ suf /\ 8 <= len pre.
Proof.
  assert (H : find_custom_chunk Toy.template_file ["w2lv"; "walv"]%string
              = Returned (Some Toy.w2lv_chunk)) by (vm_compute; reflexivity).
  split; [exact H|].
  exact (found_chunk_shape Toy.template_file ["w2lv"; "walv"]%string
           Toy.w2lv_chunk H).
Defined.

Lemma names_count_as_a_set_witness :
  (forall s, In s (map lower ["W2LV"; "w2lv"; "WaLv"]%string)
             <-> In s (map lower ["walv"; "w2lv"]%string)) /\
  find_custom_chunk Toy.template_file ["W2LV"; "w2lv"; "WaLv"]%string
  = find_custom_chunk Toy.template_file ["walv"; "w2lv"]%string.
Proof.
  assert (H : forall s, In s (map lower ["W2LV"; "w2lv"; "WaLv"]%string)
                        <-> In s (map lower ["walv"; "w2lv"]%string))
    by (intros s; vm_compute; tauto).
  split; [exact H|].
  exact (names_count_as_a_set Toy.template_file
           ["W2LV"; "w2lv"; "WaLv"]%string ["walv"; "w2lv"]%string H).
Defined.

Lemma convert_image_only_writes_output_witness :
  Toy.run_solid = (Returned tt, Toy.run_solid.2) /\
  (exists png, w_files Toy.run_solid.2
               = <["out.png"%string := png]> (w_files Toy.world0)) /\
  forall path, path <> "out.png"%string ->
    w_files Toy.run_solid.2 !! path = w_files Toy.world0 !! path.
Proof.
  assert (Hrun : Toy.run_solid = (Returned tt, Toy.run_solid.2))
    by (vm_compute; reflexivity).
  split; [exact Hrun|].
  exact (@convert_image_only_writes_output Toy.lib "in.raw" "out.png" None 112
           None false Toy.world0 Toy.run_solid.2 Hrun).
Defined.

(** On the full disk the run fails in the write and leaves the first ten
    bytes of the output; with the standard output closed it fails in
    [print], and the whole output is in place. *)
Example full_disk_leaves_a_beginning :
  Toy.run_full_disk.1 = Raised OSError /\
  w_files Toy.run_full_disk.2 !! "out.png"%string = Some (take 10 Toy.png_solid).
Proof. split; vm_compute; reflexivity. Qed.

Example closed_stdout_fails_after_the_write :
  (@convert_image Toy.lib "in.raw" "out.png" None 112 None false
     Toy.world_closed_stdout).1 = Raised OSError /\
  w_files (@convert_image Toy.lib "in.raw" "out.png" None 112 None false
             Toy.world_closed_stdout).2 !! "out.png"%string = Some Toy.png_solid.
Proof. split; vm_compute; reflexivity. Qed.

Example no_directory_keeps_files :
  @convert_image Toy.lib "in.raw" "out.png" None 112 None false
    Toy.world_no_directory
  = (Raised FileNotFoundError,
     after Toy.world_no_directory
       [EvOpenRead "in.raw"; EvWrite "out.png" Toy.png_solid]).
Proof. vm_compute. reflexivity. Qed.


Lemma convert_image_input_errors_witness :
  1 <= 112 <= 112 /\
  w_files Toy.world0 !! "nowhere.raw"%string = None /\
  Desk.missing_input
  = (Raised FileNotFoundError, after Toy.world0 [EvOpenRead "nowhere.raw"]).
Proof.
  assert (Hrange : 1 <= 112 <= 112) by lia.
  assert (Hf : w_files Toy.world0 !! "nowhere.raw"%string = None)
    by (vm_compute; reflexivity).
  split; [exact Hrange|]. split; [exact Hf|].
  exact (proj1 (@convert_image_input_errors Toy.lib "nowhere.raw" "out.png" None
                  112 None false Toy.world0 Hrange) Hf).
Defined.

Lemma convert_image_template_missing_witness :
  w_files Toy.world0 !! "nowhere.png"%string = None /\
  (@convert_image Toy.lib "in.raw" "out.png" (Some "nowhere.png"%string) 112
     None false Toy.world0).1 = Toy.run_solid.1 /\
  w_files (@convert_image Toy.lib "in.raw" "out.png" (Some "nowhere.png"%string)
             112 None false Toy.world0).2
  = w_files Toy.run_solid.2.
Proof.
  assert (Hf : w_files Toy.world0 !! "nowhere.png"%string = None)
    by (vm_compute; reflexivity).
  split; [exact Hf|].
  exact (@convert_image_template_missing Toy.lib "in.raw" "out.png" "nowhere.png"
           112 None false Toy.world0 Hf).
Defined.

Lemma convert_image_trace_witness :
  Toy.run_solid_template = (Returned tt, Toy.run_solid_template.2) /\
  exists png tevs,
    w_files Toy.run_solid_template.2 !! "out.png"%string = Some png /\
    w_trace Toy.run_solid_template.2
    = w_trace Toy.world0 ++ [EvOpenRead "in.raw"] ++ tevs
      ++ [EvWrite "out.png" png; EvPrint ("Created W:A map: " +:+ "out.png")] /\
    (tevs = [] \/
     exists path, Some "map.png"%string = Some path /\
       (tevs = [EvIsFile path] \/ tevs = [EvIsFile path; EvOpenRead path])).
Proof.
  assert (Hrun : Toy.run_solid_template = (Returned tt, Toy.run_solid_template.2))
    by (vm_compute; reflexivity).
  split; [exact Hrun|].
  exact (@convert_image_trace Toy.lib "in.raw" "out.png" (Some "map.png"%string)
           112 None false Toy.world0 Toy.run_solid_template.2 Hrun).
Defined.

Lemma convert_image_keeps_encoded_image_witness :
  Toy.run_solid_template = (Returned tt, Toy.run_solid_template.2) /\
  exists src q t pre c suf,
    @writes Toy.lib "in.raw" "out.png" 112 None false
      Toy.world0 Toy.run_solid_template.2 src q t (pre ++ c ++ suf) /\
    pre ++ suf = @save_png Toy.lib q t /\
    (c = [] \/
     exists path tbytes,
       Some "map.png"%string = Some path /\
       w_files Toy.world0 !! path = Some tbytes /\
       find_custom_chunk tbytes ["w2lv"; "walv"]%string = Returned (Some c)).
Proof.
  assert (Hrun : Toy.run_solid_template = (Returned tt, Toy.run_solid_template.2))
    by (vm_compute; reflexivity).
  split; [exact Hrun|].
  exact (@convert_image_keeps_encoded_image Toy.lib "in.raw" "out.png"
           (Some "map.png"%string) 112 None false Toy.world0
           Toy.run_solid_template.2 Hrun).
Defined.

Lemma convert_image_ends_witness :
  @library_ends Toy.lib /\ Toy.run_solid_template.1 <> NoFuel.
Proof.
  split; [exact toy_library_ends|].
  exact (@convert_image_ends Toy.lib "in.raw" "out.png" (Some "map.png"%string)
           112 None false Toy.world0 toy_library_ends).
Defined.

Lemma parse_colour_one_text_witness :
  String.length "0" <> 3%nat /\
  @parse_colour Desk.builtins (chars "0")
  = ArgumentTypeError "colour must be three integers".
Proof.
  assert (H : String.length "0" <> 3%nat) by discriminate.
  split; [exact H|].
  exact (@parse_colour_one_text Desk.builtins "0" H).
Defined.

Lemma run_conversion_one_dialog_witness :
  @library_ends Toy.lib /\
  exists d' dlg,
    @run_conversion Toy.lib Desk.builtins (Desk.desk "map.png" "112" true)
      = (Returned tt, d') /\
    d_dialogs d' = d_dialogs (Desk.desk "map.png" "112" true) ++ [dlg].
Proof.
  split; [exact toy_library_ends|].
  exact (@run_conversion_one_dialog Toy.lib Desk.builtins
           (Desk.desk "map.png" "112" true) toy_library_ends).
Defined.

Lemma run_conversion_validates_witness :
  Desk.press = (Returned tt, Desk.press.2) /\
  (d_world Desk.press.2 = d_world (Desk.desk "map.png" "112" true) \/
   exists output_path template_path max_cols tc,
     "in.raw"%string <> EmptyString /\
     template_path <> Some EmptyString /\
     1 <= max_cols <= 112 /\
     valid_colour_choice true tc /\
     (@convert_image Toy.lib "in.raw" output_path template_path max_cols tc
        false Toy.world0).2 = d_world Desk.press.2).
Proof.
  assert (Hrun : Desk.press = (Returned tt, Desk.press.2))
    by (vm_compute; reflexivity).
  split; [exact Hrun|].
  exact (@run_conversion_validates Toy.lib Desk.builtins
           (Desk.desk "map.png" "112" true) (Returned tt) Desk.press.2 Hrun).
Defined.

(** Pressed on a system that refuses nothing, the button ends in the
    Success box with the output written. *)
Example press_succeeds :
  d_dialogs Desk.press.2
    = [ShowInfo "Success" ("Created map:" +:+ newline +:+ "out.png")] /\
  w_files (d_world Desk.press.2) !! "out.png"%string
    = w_files Toy.run_solid_template.2 !! "out.png"%string.
Proof. split; vm_compute; reflexivity. Qed.

Lemma run_conversion_changed_files_witness :
  Desk.press_closed_stdout = (Returned tt, Desk.press_closed_stdout.2) /\
  w_files (d_world Desk.press_closed_stdout.2) <> w_files Toy.world_closed_stdout /\
  exists output_path png,
    w_files (d_world Desk.press_closed_stdout.2)
      = <[output_path := png]> (w_files Toy.world_closed_stdout) /\
    ((lets_through Toy.world_closed_stdout output_path /\
      d_dialogs Desk.press_closed_stdout.2
      = [] ++ [ShowInfo "Success" ("Created map:" +:+ newline +:+ output_path)]) \/
     (exists exc,
        ((exists n, write_error (w_refusals Toy.world_closed_stdout) output_path
                    = Some (n, exc)) \/
         print_error (w_refusals Toy.world_closed_stdout)
           ("Created W:A map: " +:+ output_path) = Some exc) /\
        d_dialogs Desk.press_closed_stdout.2
        = [] ++ [ShowError "Conversion failed"
                   ("Could not create map:" +:+ newline
                    +:+ @exn_text Desk.builtins exc)])).
Proof.
  assert (Hrun : Desk.press_closed_stdout
                 = (Returned tt, Desk.press_closed_stdout.2))
    by (vm_compute; reflexivity).
  assert (Hne : w_files (d_world Desk.press_closed_stdout.2)
                <> w_files Toy.world_closed_stdout).
  { intros Heq.
    assert (Hl : w_files (d_world Desk.press_closed_stdout.2) !! "out.png"%string
                 = w_files Toy.world_closed_stdout !! "out.png"%string)
      by (by rewrite Heq).
    vm_compute in Hl. discriminate. }
  split; [exact Hrun|]. split; [exact Hne|].
  exact (@run_conversion_changed_files Toy.lib Desk.builtins
           (Desktop (Desk.window "map.png" "112" true) Toy.world_closed_stdout [])
           (Returned tt) Desk.press_closed_stdout.2 Hrun Hne).
Defined.

Lemma run_conversion_ignores_colour_when_disabled_witness :
  gui_no_transparency (d_gui (Desk.desk "map.png" "112" true)) = true /\
  (@run_conversion Toy.lib Desk.builtins
     (set_colour_fields "red" "" "999" (Desk.desk "map.png" "112" true))).1
  = (@run_conversion Toy.lib Desk.builtins (Desk.desk "map.png" "112" true)).1.
Proof.
  assert (H : gui_no_transparency (d_gui (Desk.desk "map.png" "112" true)) = true)
    by reflexivity.
  split; [exact H|].
  exact (proj1 (@run_conversion_ignores_colour_when_disabled Toy.lib Desk.builtins
                  (Desk.desk "map.png" "112" true) "red" "" "999" H)).
Defined.

Lemma find_wa_savedlevels_sound_witness :
  @find_wa_savedlevels _ _ _ Desk.machine
    = Some "/games/steamapps/common/Worms Armageddon/User/SavedLevels"%string /\
  @is_dir _ _ _ Desk.machine
    "/games/steamapps/common/Worms Armageddon/User/SavedLevels" = true.
Proof.
  assert (H : @find_wa_savedlevels _ _ _ Desk.machine
              = Some "/games/steamapps/common/Worms Armageddon/User/SavedLevels"%string)
    by (vm_compute; reflexivity).
  split; [exact H|].
  exact (proj1 (@find_wa_savedlevels_sound _ _ _ Desk.machine _ H)).
Defined.

Lemma find_wa_savedlevels_none_witness :
  @find_wa_savedlevels _ _ _ Desk.bare_machine = None /\
  forall root, root ∈ @potential_roots _ _ _ Desk.bare_machine ->
    @is_dir _ _ _ Desk.bare_machine
      (@child _ _ _ Desk.bare_machine (@child _ _ _ Desk.bare_machine root "User")
         "SavedLevels") = false.
Proof.
  assert (H : @find_wa_savedlevels _ _ _ Desk.bare_machine = None)
    by (vm_compute; reflexivity).
  split; [exact H|].
  exact (proj1 (proj2 (@find_wa_savedlevels_none _ _ _ Desk.bare_machine H))).
Defined.

(** The stand-in for [int()] reads what Python reads in ASCII text: blanks
    around the number, a sign, single underscores between digits. *)
Example int_reads_like_python :
  Desk.int " +1_0 " = Some 10 /\
  Desk.int "-5" = Some (-5) /\
  Desk.int "007" = Some 7 /\
  Desk.int "1__0" = None /\
  Desk.int "_1" = None /\
  Desk.int "+ 1" = None /\
  Desk.int "" = None /\
  Desk.int "1.0" = None.
Proof. repeat split; vm_compute; reflexivity. Qed.

(** The library file of the machine names the Steam root again and a second
    library: the root's folder is returned once, ahead of the second one. *)
Example steam_libraries_of_the_machine :
  @collect_libraries string _ _ Desk.machine
    = ["/home/u/.steam/steam/steamapps"; "/home/u/.steam/steam/steamapps";
       "/games/steamapps"]%string /\
  @_steam_libraries string _ _ Desk.machine
    = ["/home/u/.steam/steam/steamapps"; "/games/steamapps"]%string.
Proof. split; vm_compute; reflexivity. Qed.
